(** * A shallow embedding of [amap_navigation.py]

    The program is a thin client of a mapping web service: [geocode] turns an
    address into a coordinate, [get_walking_navigation] fetches a walking
    route, [display_walking_navigation] prints it.  All three work on the
    dynamically typed value that [response.json()] returns, so the embedding
    starts with that value type and the Python operations the source applies
    to it ([v['k']], [v[0]], ['k' in v], [v.get], [int(v)], [a / b],
    [f"{x:.1f}"], truthiness), each with the exception it raises when it does
    not apply.  Console output and exceptions are threaded through a small
    writer-and-error monad.

    Conventions of the model.
    - A Python [str] is a [string] holding its UTF-8 bytes.
    - A [dict] is an association list in insertion order; lookup takes the
      first binding of a key.
    - Every exception of the model derives from Python's [Exception], which is
      what the two [except Exception] clauses of the source catch; signals
      from outside the program, such as [KeyboardInterrupt], are not part of
      it.
    - An f-string is formatted before it is printed, and formatting is
      where it can fail: [format] refuses an int beyond the digit limit of
      the interpreter with a [ValueError].  The lines of a step show fields
      that a caller is free to choose and go through [format]; the other
      lines show a text, a caught exception, a float with one decimal, or
      the body that [response.json()] parsed, in which no such int occurs,
      as the parser refuses its literal.
    - [print] of a formatted text appends one entry to the output: a
      [string] is well-formed text, which the console can show.
    - [int] reads the decimal digits and the white space of Unicode 14, the
      tables of CPython 3.11, and applies the digit limit of that version.
    - The quotient of two ints is the nearest double and [f"{x:.1f}"] the
      nearest number of tenths to that double, ties to even in both, computed
      on integers ([double_of_ratio_nearest], [minutes_one_decimal]). *)

From Stdlib Require Import ZArith Lia Bool List String Ascii.
From Stdlib Require Import SpecFloat DecimalString.
From Stdlib Require DecimalFacts DecimalPos.
Import ListNotations.

#[local] Set Warnings "-register-all".

Local Open Scope string_scope.
Local Open Scope Z_scope.
Local Open Scope list_scope.

(** ** Values *)

(** What [json.loads] can produce. *)
Inductive value : Type :=
| VNone
| VBool (b : bool)
| VInt (z : Z)
| VFloat (x : spec_float)
| VStr (s : string)
| VList (l : list value)
| VDict (d : list (string * value)).

Definition dict := list (string * value).

(** The exceptions the modelled operations raise, and the two the HTTP layer
    reports.  [KeyError] carries the key, as [str(e)] shows it. *)
Inductive exn : Type :=
| KeyError (key : value)
| IndexError
| TypeError
| ValueError
| OverflowError
| AttributeError
| ZeroDivisionError
| RequestException (msg : string)
| JSONDecodeError (msg : string).

(** ** Console output *)

(** One piece of an f-string: literal text, [{v}] for a value, [{e}] for a
    caught exception, [{x:.1f}] for a float. *)
Inductive fragment : Type :=
| Lit (s : string)
| Fmt (v : value)
| FmtExn (e : exn)
| FmtFixed1 (x : spec_float).

(** The text of one f-string, and so of one [print] call. *)
Definition text := list fragment.

(** ** Output and exceptions *)

Module PyM.

(** A computation yields the lines printed so far and either the exception
    that stopped it or its result. *)
Definition M (A : Type) : Type := list text * (exn + A).

Definition ret {A} (a : A) : M A := ([], inr a).

Definition raise {A} (e : exn) : M A := ([], inl e).

Definition lift {A} (r : exn + A) : M A := ([], r).

Definition print (t : text) : M unit := ([t], inr tt).

Definition bind {A B} (m : M A) (f : A -> M B) : M B :=
  match m with
  | (out, inl e) => (out, inl e)
  | (out, inr a) => let (out', r) := f a in (out ++ out', r)
  end.

(** [try: m  except Exception as e: h e]. *)
Definition try_except {A} (m : M A) (h : exn -> M A) : M A :=
  match m with
  | (out, inl e) => let (out', r) := h e in (out ++ out', r)
  | (out, inr a) => (out, inr a)
  end.

Definition output {A} (m : M A) : list text := fst m.

Definition result {A} (m : M A) : exn + A := snd m.

(** The computation ends without an exception reaching the caller. *)
Definition returns {A} (m : M A) : Prop := exists a, result m = inr a.

End PyM.

Import PyM.

Notation "x <- m ;; k" := (bind m (fun x => k))
  (at level 61, m at next level, right associativity).
Notation "m ;;; k" := (bind m (fun _ => k))
  (at level 61, right associativity).

(** ** Python operations on values *)

Fixpoint dict_get {V} (k : string) (d : list (string * V)) : option V :=
  match d with
  | [] => None
  | (k', v) :: rest => if String.eqb k k' then Some v else dict_get k rest
  end.

Definition dict_mem {V} (k : string) (d : list (string * V)) : bool :=
  match dict_get k d with Some _ => true | None => false end.

(** [v == 'k'] for a string literal: only a [str] can be equal to it. *)
Definition eq_str (v : value) (k : string) : bool :=
  match v with
  | VStr s => String.eqb s k
  | _ => false
  end.

(** [bool(v)]. *)
Definition truthy (v : value) : bool :=
  match v with
  | VNone => false
  | VBool b => b
  | VInt z => negb (z =? 0)
  | VFloat (S754_zero _) => false
  | VFloat _ => true
  | VStr s => negb (String.eqb s "")
  | VList l => match l with [] => false | _ => true end
  | VDict d => match d with [] => false | _ => true end
  end.

(** A UTF-8 continuation byte, [10xxxxxx]. *)
Definition is_continuation (c : ascii) : bool :=
  let n := N_of_ascii c in ((128 <=? n) && (n <? 192))%N.

Definition starts_with_continuation (s : string) : bool :=
  match s with
  | String c _ => is_continuation c
  | EmptyString => false
  end.

(** The characters of a [str], each with its UTF-8 bytes. *)
Fixpoint chars (s : string) : list string :=
  match s with
  | EmptyString => []
  | String c r =>
      match chars r with
      | x :: xs =>
          if starts_with_continuation r then String c x :: xs
          else String c EmptyString :: x :: xs
      | [] => [String c EmptyString]
      end
  end.

(** [needle in s] for two strings. *)
Fixpoint substring_of (needle s : string) : bool :=
  String.prefix needle s
  || match s with
     | EmptyString => false
     | String _ r => substring_of needle r
     end.

(** [v['k']]. *)
Definition subscript (v : value) (k : string) : exn + value :=
  match v with
  | VDict d =>
      match dict_get k d with
      | Some x => inr x
      | None => inl (KeyError (VStr k))
      end
  | _ => inl TypeError
  end.

(** [v[0]].  The keys of a parsed JSON object are strings, never [0]. *)
Definition subscript0 (v : value) : exn + value :=
  match v with
  | VList (x :: _) => inr x
  | VList [] => inl IndexError
  | VStr s =>
      match chars s with
      | c :: _ => inr (VStr c)
      | [] => inl IndexError
      end
  | VDict _ => inl (KeyError (VInt 0))
  | _ => inl TypeError
  end.

(** ['k' in v]. *)
Definition contains (k : string) (v : value) : exn + bool :=
  match v with
  | VDict d => inr (dict_mem k d)
  | VList l => inr (existsb (fun x => eq_str x k) l)
  | VStr s => inr (substring_of k s)
  | _ => inl TypeError
  end.

(** [v.get('k', default)]: only a dict has the method. *)
Definition method_get (v : value) (k : string) (default : value)
  : exn + value :=
  match v with
  | VDict d =>
      match dict_get k d with
      | Some x => inr x
      | None => inr default
      end
  | _ => inl AttributeError
  end.

(** [enumerate(l, start)]. *)
Fixpoint enumerate {A} (start : Z) (l : list A) : list (Z * A) :=
  match l with
  | [] => []
  | x :: rest => (start, x) :: enumerate (start + 1) rest
  end.

(** [for x in l: body x]. *)
Fixpoint for_each {A} (l : list A) (body : A -> M unit) : M unit :=
  match l with
  | [] => ret tt
  | x :: rest => body x ;;; for_each rest body
  end.

(** [iter(v)], as a [for] loop walks it. *)
Definition iterate (v : value) : exn + list value :=
  match v with
  | VList l => inr l
  | VStr s => inr (map VStr (chars s))
  | VDict d => inr (map (fun kv => VStr (fst kv)) d)
  | _ => inl TypeError
  end.

(** ** Numbers *)

Module Num.

Definition is_space (c : ascii) : bool :=
  let n := N_of_ascii c in ((n =? 32) || ((9 <=? n) && (n <=? 13)))%N.

Definition digit_of (c : ascii) : option Z :=
  let n := N_of_ascii c in
  if ((48 <=? n) && (n <=? 57))%N then Some (Z.of_N n - 48) else None.

Definition is_underscore (c : ascii) : bool := (N_of_ascii c =? 95)%N.

Fixpoint skip_spaces (s : string) : string :=
  match s with
  | String c r => if is_space c then skip_spaces r else s
  | EmptyString => EmptyString
  end.

Fixpoint all_spaces (s : string) : bool :=
  match s with
  | String c r => is_space c && all_spaces r
  | EmptyString => true
  end.

(** CPython refuses a literal of more than this many digits
    ([sys.int_max_str_digits], from 3.11 on). *)
Definition max_str_digits : Z := 4300.

(** The rest of a decimal literal once a digit has been read: more digits,
    single underscores between digits, then only white space.  [room] is
    the number of digits still allowed. *)
Fixpoint parse_digits (room : Z) (acc : Z) (s : string) : option Z :=
  match s with
  | EmptyString => Some acc
  | String c r =>
      match digit_of c with
      | Some d =>
          if 0 <? room then parse_digits (room - 1) (10 * acc + d) r
          else None
      | None =>
          if is_underscore c then
            match r with
            | String c' r' =>
                match digit_of c' with
                | Some d =>
                    if 0 <? room
                    then parse_digits (room - 1) (10 * acc + d) r'
                    else None
                | None => None
                end
            | EmptyString => None
            end
          else if is_space c then
            if all_spaces r then Some acc else None
          else None
      end
  end.

Definition parse_unsigned (s : string) : option Z :=
  match s with
  | String c r =>
      match digit_of c with
      | Some d => parse_digits (max_str_digits - 1) d r
      | None => None
      end
  | EmptyString => None
  end.

(** A decimal literal in ASCII: white space, an optional sign, the digits,
    white space. *)
Definition parse_ascii_int (s : string) : option Z :=
  match skip_spaces s with
  | String "-" r => option_map Z.opp (parse_unsigned r)
  | String "+" r => parse_unsigned r
  | s' => parse_unsigned s'
  end.

(** Before it reads a [str], [int] maps the decimal digits of every script
    to ASCII digits and the white space beyond ASCII to a blank; any other
    character beyond ASCII makes the string no literal.  The decimal digits
    of Unicode 14 (the tables of CPython 3.11) come in runs of ten, zero to
    nine; these are the code points of the zeros. *)
Definition decimal_zeros : list N :=
  [ 48; 1632; 1776; 1984; 2406; 2534; 2662; 2790; 2918; 3046; 3174; 3302;
    3430; 3558; 3664; 3792; 3872; 4160; 4240; 6112; 6160; 6470; 6608; 6784;
    6800; 6992; 7088; 7232; 7248; 42528; 43216; 43264; 43472; 43504; 43600;
    44016; 65296; 66720; 68912; 69734; 69872; 69942; 70096; 70384; 70736;
    70864; 71248; 71360; 71472; 71904; 72016; 72784; 73040; 73120; 92768;
    92864; 93008; 120782; 120792; 120802; 120812; 120822; 123200; 123632;
    125264; 130032 ]%N.

Definition unicode_decimal (cp : N) : option N :=
  match find (fun z => (z <=? cp) && (cp <? z + 10))%N decimal_zeros with
  | Some z => Some (cp - z)%N
  | None => None
  end.

(** The white space beyond ASCII. *)
Definition is_unicode_space (cp : N) : bool :=
  ((cp =? 133) || (cp =? 160) || (cp =? 5760)
   || ((8192 <=? cp) && (cp <=? 8202))
   || (cp =? 8232) || (cp =? 8233) || (cp =? 8239) || (cp =? 8287)
   || (cp =? 12288))%N.

(** What [int] reads in place of a character beyond ASCII. *)
Definition ascii_of_code_point (cp : N) : option ascii :=
  if is_unicode_space cp then Some " "%char
  else option_map (fun d => ascii_of_N (48 + d)) (unicode_decimal cp).

(** The payload of a continuation byte of UTF-8. *)
Definition continuation (c : ascii) : option N :=
  let n := N_of_ascii c in
  if ((128 <=? n) && (n <? 192))%N then Some (n - 128)%N else None.

Definition push (c : option ascii) (rest : option string) : option string :=
  match c, rest with
  | Some a, Some s => Some (String a s)
  | _, _ => None
  end.

(** The ASCII string that [int] parses for [s]: characters below 127 as
    they are, the others decoded from their UTF-8 bytes and mapped. *)
Fixpoint to_ascii (s : string) : option string :=
  match s with
  | EmptyString => Some EmptyString
  | String c r =>
      let n := N_of_ascii c in
      if (n <? 127)%N then push (Some c) (to_ascii r)
      else if ((192 <=? n) && (n <? 224))%N then
        match r with
        | String c1 r1 =>
            match continuation c1 with
            | Some x1 =>
                push (ascii_of_code_point ((n - 192) * 64 + x1)%N)
                     (to_ascii r1)
            | None => None
            end
        | _ => None
        end
      else if ((224 <=? n) && (n <? 240))%N then
        match r with
        | String c1 (String c2 r2) =>
            match continuation c1, continuation c2 with
            | Some x1, Some x2 =>
                push (ascii_of_code_point
                        (((n - 224) * 64 + x1) * 64 + x2)%N)
                     (to_ascii r2)
            | _, _ => None
            end
        | _ => None
        end
      else if ((240 <=? n) && (n <? 248))%N then
        match r with
        | String c1 (String c2 (String c3 r3)) =>
            match continuation c1, continuation c2, continuation c3 with
            | Some x1, Some x2, Some x3 =>
                push (ascii_of_code_point
                        ((((n - 240) * 64 + x1) * 64 + x2) * 64 + x3)%N)
                     (to_ascii r3)
            | _, _, _ => None
            end
        | _ => None
        end
      else None
  end.

(** [int(s)] for a [str]. *)
Definition parse_int (s : string) : option Z :=
  match to_ascii s with
  | Some a => parse_ascii_int a
  | None => None
  end.

(** [int(x)] for a float: truncation towards zero. *)
Definition trunc_float (x : spec_float) : exn + Z :=
  match x with
  | S754_zero _ => inr 0
  | S754_infinity _ => inl OverflowError
  | S754_nan => inl ValueError
  | S754_finite s m e =>
      let a := if 0 <=? e then Z.pos m * 2 ^ e else Z.pos m / 2 ^ (- e) in
      inr (if s then - a else a)
  end.

(** [int(v)]. *)
Definition py_int (v : value) : exn + Z :=
  match v with
  | VInt z => inr z
  | VBool b => inr (if b then 1 else 0)
  | VFloat x => trunc_float x
  | VStr s =>
      match parse_int s with
      | Some z => inr z
      | None => inl ValueError
      end
  | VNone | VList _ | VDict _ => inl TypeError
  end.

(** The integer nearest to [n / d], ties to the even one ([0 < d]). *)
Definition round_half_even_div (n d : Z) : Z :=
  let q := n / d in
  match 2 * (n mod d) ?= d with
  | Lt => q
  | Gt => q + 1
  | Eq => if Z.even q then q else q + 1
  end.

(** The double nearest to [n / d] for [0 < n] and [0 < d], with sign [s]:
    a 53-bit significand [m] and an exponent [e], the value being
    [m * 2 ^ e]; [OverflowError] beyond the largest double. *)
Definition double_of_ratio (s : bool) (n d : Z) : exn + spec_float :=
  let k := Z.log2 n - Z.log2 d in
  let lg := if n * 2 ^ Z.max 0 (- k) <? d * 2 ^ Z.max 0 k
            then k - 1 else k in
  let e := Z.max (lg - 52) (-1074) in
  let m := round_half_even_div (n * 2 ^ Z.max 0 (- e))
                               (d * 2 ^ Z.max 0 e) in
  let '(m, e) := if m =? 2 ^ 53 then (2 ^ 52, e + 1) else (m, e) in
  match m with
  | Z0 => inr (S754_zero s)
  | Zpos p => if e <=? 971 then inr (S754_finite s p e)
              else inl OverflowError
  | Zneg _ => inr S754_nan
  end.

(** [a / b] for two ints: the correctly rounded quotient. *)
Definition int_truediv (a b : Z) : exn + spec_float :=
  if b =? 0 then inl ZeroDivisionError
  else if a =? 0 then inr (S754_zero (b <? 0))
  else double_of_ratio (xorb (a <? 0) (b <? 0)) (Z.abs a) (Z.abs b).

(** [str(z)] for an int. *)
Definition dec (z : Z) : string := NilZero.string_of_int (Z.to_int z).

(** The number of tenths nearest to a positive finite double [m * 2 ^ e],
    ties to even. *)
Definition tenths (m : positive) (e : Z) : Z :=
  if 0 <=? e then 10 * Z.pos m * 2 ^ e
  else round_half_even_div (10 * Z.pos m) (2 ^ (- e)).

Definition sign_text (s : bool) : string := if s then "-" else "".

(** [f"{x:.1f}"]. *)
Definition fixed1 (x : spec_float) : string :=
  match x with
  | S754_zero s => (sign_text s ++ "0.0")%string
  | S754_infinity s => (sign_text s ++ "inf")%string
  | S754_nan => "nan"
  | S754_finite s m e =>
      let t := tenths m e in
      (sign_text s ++ dec (t / 10) ++ "." ++ dec (t mod 10))%string
  end.

(** The value of a row of decimal digits read after [acc]. *)
Fixpoint uint_value (acc : Z) (u : Decimal.uint) : Z :=
  match u with
  | Decimal.Nil => acc
  | Decimal.D0 u' => uint_value (10 * acc + 0) u'
  | Decimal.D1 u' => uint_value (10 * acc + 1) u'
  | Decimal.D2 u' => uint_value (10 * acc + 2) u'
  | Decimal.D3 u' => uint_value (10 * acc + 3) u'
  | Decimal.D4 u' => uint_value (10 * acc + 4) u'
  | Decimal.D5 u' => uint_value (10 * acc + 5) u'
  | Decimal.D6 u' => uint_value (10 * acc + 6) u'
  | Decimal.D7 u' => uint_value (10 * acc + 7) u'
  | Decimal.D8 u' => uint_value (10 * acc + 8) u'
  | Decimal.D9 u' => uint_value (10 * acc + 9) u'
  end.

(** The number of tenths that [fixed1] prints, sign apart. *)
Definition tenths_of (x : spec_float) : Z :=
  match x with
  | S754_finite _ m e => tenths m e
  | _ => 0
  end.

End Num.

Import Num.

(** ** Rendering *)

(** The characters a fragment prints, where the model determines them: the
    [repr] of floats, lists and dicts, and the message of an exception, are
    left to the interpreter. *)
Definition render_fragment (f : fragment) : option string :=
  match f with
  | Lit s => Some s
  | Fmt VNone => Some "None"
  | Fmt (VBool b) => Some (if b then "True" else "False")
  | Fmt (VInt z) => Some (dec z)
  | Fmt (VStr s) => Some s
  | Fmt (VFloat _) | Fmt (VList _) | Fmt (VDict _) => None
  | FmtExn _ => None
  | FmtFixed1 x => Some (fixed1 x)
  end.

Fixpoint render (t : text) : option string :=
  match t with
  | [] => Some EmptyString
  | f :: rest =>
      match render_fragment f, render rest with
      | Some a, Some b => Some (a ++ b)%string
      | _, _ => None
      end
  end.

(** A line break inside a literal. *)
Definition nl : string := String (ascii_of_N 10) EmptyString.

(** Formatting a value into an f-string can fail: the decimal form of an
    int of more than [max_str_digits] digits is refused with a
    [ValueError], also inside a list or a dict. *)
Fixpoint printable (v : value) : bool :=
  match v with
  | VInt z => Z.abs z <? 10 ^ max_str_digits
  | VList l => forallb printable l
  | VDict d => forallb (fun kv => printable (snd kv)) d
  | VNone | VBool _ | VFloat _ | VStr _ => true
  end.

(** [f"{v}"]. *)
Definition format (v : value) : exn + fragment :=
  if printable v then inr (Fmt v) else inl ValueError.

Arguments printable : simpl never.
Arguments format : simpl never.

(** ** The HTTP layer *)

(** What [requests.get(url, params=params)] is called with. *)
Record request : Type := {
  req_url : string;
  req_params : list (string * value)
}.

(** A response, as far as the client looks at it: [response.json()] gives
    the parsed body or raises. *)
Record response : Type := {
  json : exn + value
}.

(** The remote service and the transport: [requests.get] gives a response
    or raises. *)
Definition network := request -> exn + response.

(** ** The client *)

Record AmapNavigation : Type := {
  api_key : string;
  geocode_url : string;
  walking_url : string
}.

(** [AmapNavigation.__init__]. *)
Definition init (key : string) : AmapNavigation := {|
  api_key := key;
  geocode_url := "https://restapi.amap.com/v3/geocode/geo";
  walking_url := "https://restapi.amap.com/v5/direction/walking"
|}.

Section Client.

Variable requests_get : network.
Variable self : AmapNavigation.

Definition geocode_request (address : string) : request := {|
  req_url := geocode_url self;
  req_params := [("key", VStr (api_key self)); ("address", VStr address)]
|}.

(** The body of the [try] in [geocode]. *)
Definition geocode_try (address : string) : M value :=
  response <- lift (requests_get (geocode_request address)) ;;
  result <- lift (json response) ;;
  status <- lift (subscript result "status") ;;
  success <-
    (if eq_str status "1" then
       count <- lift (subscript result "count") ;;
       ret (negb (eq_str count "0"))
     else ret false) ;;
  if success : bool then
    geocodes <- lift (subscript result "geocodes") ;;
    first <- lift (subscript0 geocodes) ;;
    location <- lift (subscript first "location") ;;
    ret location
  else
    print [Lit "地址转换失败: "; Fmt (VStr address)] ;;;
    print [Lit "错误信息: "; Fmt result] ;;;
    ret VNone.

(** [AmapNavigation.geocode]. *)
Definition geocode (address : string) : M value :=
  try_except (geocode_try address)
    (fun e => print [Lit "地址转换异常: "; FmtExn e] ;;; ret VNone).

Definition walking_request (origin destination : value) : request := {|
  req_url := walking_url self;
  req_params := [("key", VStr (api_key self));
                 ("origin", origin);
                 ("destination", destination);
                 ("show_fields", VStr "cost,navi,polyline")]
|}.

(** The body of the [try] in [get_walking_navigation]. *)
Definition get_walking_navigation_try (origin destination : value)
  : M value :=
  response <- lift (requests_get (walking_request origin destination)) ;;
  result <- lift (json response) ;;
  status <- lift (subscript result "status") ;;
  if eq_str status "1" then ret result
  else
    print [Lit "获取步行导航路线失败"] ;;;
    print [Lit "错误信息: "; Fmt result] ;;;
    ret VNone.

(** [AmapNavigation.get_walking_navigation]. *)
Definition get_walking_navigation (origin destination : value) : M value :=
  try_except (get_walking_navigation_try origin destination)
    (fun e => print [Lit "获取步行导航路线异常: "; FmtExn e] ;;; ret VNone).

End Client.

(** *** Rendering a route *)

(** The body of the [for] loop of [display_walking_navigation], for the
    step numbered [i].  Each f-string is formatted before its line is
    printed, the action line where it is built, before the first [print]
    of the block.  The number [i] counts the elements of a list in memory
    and is far below the digit limit. *)
Definition display_step (i : Z) (step : value) : M unit :=
  instruction <- lift (subscript step "instruction") ;;
  road_name <- lift (method_get step "road_name" (VStr "未命名道路")) ;;
  distance_value <- lift (subscript step "step_distance") ;;
  step_distance <- lift (py_int distance_value) ;;
  has_navi <- lift (contains "navi" step) ;;
  action_info <-
    (if has_navi : bool then
       navi <- lift (subscript step "navi") ;;
       action <- lift (method_get navi "action" (VStr "")) ;;
       if truthy action then
         shown <- lift (format action) ;;
         ret [Lit "动作: "; shown]
       else ret []
     else ret []) ;;
  shown_instruction <- lift (format instruction) ;;
  print [Lit (nl ++ "步骤 "); Fmt (VInt i); Lit ": "; shown_instruction] ;;;
  shown_road <- lift (format road_name) ;;
  print [Lit "  道路名称: "; shown_road] ;;;
  shown_distance <- lift (format (VInt step_distance)) ;;
  print [Lit "  距离: "; shown_distance; Lit " 米"] ;;;
  match action_info : text with
  | [] => ret tt
  | _ => print (Lit "  " :: action_info)
  end.

Definition no_route_line : text := [Lit "没有可用的步行导航信息"].

(** [AmapNavigation.display_walking_navigation].  The guard is
    [not nav_result or 'route' not in nav_result]: the membership test runs
    only on a truthy value. *)
Definition display_walking_navigation (nav_result : value) : M unit :=
  no_route <-
    (if negb (truthy nav_result) then ret true
     else has_route <- lift (contains "route" nav_result) ;;
          ret (negb has_route)) ;;
  if no_route : bool then print no_route_line
  else
    route <- lift (subscript nav_result "route") ;;
    all_paths <- lift (subscript route "paths") ;;
    paths <- lift (subscript0 all_paths) ;;
    print [Lit (nl ++ "=== 步行导航路线信息 ===")] ;;;
    distance_value <- lift (subscript paths "distance") ;;
    distance <- lift (py_int distance_value) ;;
    kilometres <- lift (int_truediv distance 1000) ;;
    print [Lit "总距离: "; FmtFixed1 kilometres; Lit " 公里"] ;;;
    has_cost <- lift (contains "cost" paths) ;;
    (if has_cost : bool then
       cost <- lift (subscript paths "cost") ;;
       duration_value <- lift (subscript cost "duration") ;;
       duration <- lift (py_int duration_value) ;;
       minutes <- lift (int_truediv duration 60) ;;
       print [Lit "预计耗时: "; FmtFixed1 minutes; Lit " 分钟"]
     else ret tt) ;;;
    print [Lit (nl ++ "=== 步行导航指令 ===")] ;;;
    step_values <- lift (subscript paths "steps") ;;
    steps <- lift (iterate step_values) ;;
    for_each (enumerate 1 steps) (fun i_step =>
      display_step (fst i_step) (snd i_step)).

(** ** The entry flow *)

(** What the user sees: the prompt of an [input] call, which is not followed
    by a line break, or the line of a [print] call. *)
Inductive event : Type :=
| Prompt (s : string)
| Printed (t : text).

(** How a run of [main] can stop early: [input] finds the standard input
    exhausted, or an exception of the client reaches [main], which catches
    nothing. *)
Inductive stop : Type :=
| EOFError
| Uncaught (e : exn).

Module Console.

(** A computation reads lines of the standard input, of which [stdin] is
    what is left, and yields the events so far and either what stopped it or
    its result with the lines it left. *)
Definition C (A : Type) : Type :=
  list string -> list event * (stop + A * list string).

Definition ret {A} (a : A) : C A := fun stdin => ([], inr (a, stdin)).

Definition bind {A B} (m : C A) (f : A -> C B) : C B :=
  fun stdin =>
    match m stdin with
    | (ev, inl s) => (ev, inl s)
    | (ev, inr (a, stdin')) =>
        let (ev', r) := f a stdin' in (ev ++ ev', r)
    end.

(** [print(t)] in [main]. *)
Definition say (t : text) : C unit :=
  fun stdin => ([Printed t], inr (tt, stdin)).

(** [input(prompt)]: the prompt is shown, then a line is read. *)
Definition input (prompt : string) : C string :=
  fun stdin =>
    match stdin with
    | line :: rest => ([Prompt prompt], inr (line, rest))
    | [] => ([Prompt prompt], inl EOFError)
    end.

(** A call of a method of the client: its lines are printed, its exception,
    if any, is not caught. *)
Definition call {A} (m : M A) : C A :=
  fun stdin =>
    match m with
    | (out, inl e) => (map Printed out, inl (Uncaught e))
    | (out, inr a) => (map Printed out, inr (a, stdin))
    end.

Definition events {A} (r : list event * (stop + A * list string))
  : list event := fst r.

Definition outcome {A} (r : list event * (stop + A * list string))
  : stop + A * list string := snd r.

End Console.

Notation "x <~ m ;; k" := (Console.bind m (fun x => k))
  (at level 61, m at next level, right associativity).
Notation "m ;;~ k" := (Console.bind m (fun _ => k))
  (at level 61, right associativity).

(** The key that [main] creates the client with. *)
Definition main_api_key : string := "a06cea233db84d92bf07731050dcdada".

(** [main].  A run makes up to three requests, one in each of [geocode],
    [geocode] and [get_walking_navigation]; [first], [second] and [third]
    are what [requests.get] does at each of them. *)
Definition main (first second third : network) : Console.C unit :=
  let nav := init main_api_key in
  Console.say [Lit "欢迎使用高德地图步行导航程序!"] ;;~
  Console.say
    [Lit "请输入起点和终点地址，程序将为您规划最佳步行路线。"] ;;~
  origin_address <~ Console.input "请输入起点地址: " ;;
  destination_address <~ Console.input "请输入终点地址: " ;;
  Console.say [Lit (nl ++ "正在转换地址为坐标...")] ;;~
  origin_location <~ Console.call (geocode first nav origin_address) ;;
  if negb (truthy origin_location) then
    Console.say [Lit "起点地址无法识别，程序退出"]
  else
    destination_location <~
      Console.call (geocode second nav destination_address) ;;
    if negb (truthy destination_location) then
      Console.say [Lit "终点地址无法识别，程序退出"]
    else
      Console.say [Lit "起点坐标: "; Fmt origin_location] ;;~
      Console.say [Lit "终点坐标: "; Fmt destination_location] ;;~
      Console.say [Lit (nl ++ "正在获取步行导航路线...")] ;;~
      nav_result <~
        Console.call (get_walking_navigation third nav
                        origin_location destination_location) ;;
      if truthy nav_result then
        Console.call (display_walking_navigation nav_result)
      else
        Console.say
          [Lit "获取步行导航路线失败，请检查网络连接和API密钥是否正确"].

(** What [main] shows before the first request, for the two lines read. *)
Definition opening_events : list event :=
  [ Printed [Lit "欢迎使用高德地图步行导航程序!"];
    Printed [Lit "请输入起点和终点地址，程序将为您规划最佳步行路线。"];
    Prompt "请输入起点地址: ";
    Prompt "请输入终点地址: ";
    Printed [Lit (nl ++ "正在转换地址为坐标...")] ].

(** ** Well-formed routes and what they print *)

(** The second definitions of this part follow the description of the
    output, free of exceptions, to be compared with what the client does. *)

(** An int within the range of a double. *)
Definition in_double_range (z : Z) : bool := Z.abs z <? 2 ^ 1024.

(** A distance or duration: [int] accepts it and the result can be divided
    into a float. *)
Definition measure_ok (v : value) : bool :=
  match py_int v with
  | inr z => in_double_range z
  | inl _ => false
  end.








(** The path the client selects: the first of [route.paths]. *)
Definition first_path (nav_result : value) : option dict :=
  match subscript nav_result "route" with
  | inr route =>
      match subscript route "paths" with
      | inr all_paths =>
          match subscript0 all_paths with
          | inr (VDict pd) => Some pd
          | _ => None
          end
      | inl _ => None
      end
  | inl _ => None
  end.

Definition cost_ok (pd : dict) : bool :=
  match dict_get "cost" pd with
  | None => true
  | Some cost =>
      match subscript cost "duration" with
      | inr dv => measure_ok dv
      | inl _ => false
      end
  end.


(** A path whose summary can be shown: a distance and, under [cost], a
    duration that divide into a float. *)
Definition summary_ok (pd : dict) : bool :=
  match dict_get "distance" pd with
  | Some dv => measure_ok dv
  | None => false
  end
  && cost_ok pd.



(** [int(v) / d], when neither the conversion nor the division raises. *)
Definition quotient_of (v : value) (d : Z) : option spec_float :=
  match py_int v with
  | inr z =>
      match int_truediv z d with
      | inr x => Some x
      | inl _ => None
      end
  | inl _ => None
  end.

Definition distance_line (pd : dict) : list text :=
  match dict_get "distance" pd with
  | Some dv =>
      match quotient_of dv 1000 with
      | Some kilometres =>
          [ [Lit "总距离: "; FmtFixed1 kilometres; Lit " 公里"] ]
      | None => []
      end
  | None => []
  end.

Definition duration_line (pd : dict) : list text :=
  match dict_get "cost" pd with
  | Some cost =>
      match subscript cost "duration" with
      | inr dv =>
          match quotient_of dv 60 with
          | Some minutes =>
              [ [Lit "预计耗时: "; FmtFixed1 minutes; Lit " 分钟"] ]
          | None => []
          end
      | inl _ => []
      end
  | None => []
  end.


(** The duration line of a path, when it has a cost block. *)
Definition is_duration_line (t : text) : bool :=
  match t with
  | Lit s :: _ => String.eqb s "预计耗时: "
  | _ => false
  end.

(** ** Sample services and bodies *)

(** A service that answers every request with the same body. *)
Definition constant_service (body : value) : network :=
  fun _ => inr {| json := inr body |}.

(** A transport that fails. *)
Definition unreachable_service : network :=
  fun _ => inl (RequestException "connection refused").

(** A service whose answer is not JSON. *)
Definition garbled_service : network :=
  fun _ => inr {| json := inl (JSONDecodeError "Expecting value") |}.

Definition sample_geocodes : dict :=
  [("status", VStr "1"); ("count", VStr "1");
   ("geocodes", VList [VDict [("location", VStr "116.1,39.9")]])].

Definition sample_refusal : dict :=
  [("status", VStr "0"); ("info", VStr "INVALID_USER_KEY")].

Definition sample_no_match : dict :=
  [("status", VStr "1"); ("count", VStr "0"); ("geocodes", VList [])].

Definition sample_no_geocodes : dict :=
  [("status", VStr "1"); ("count", VStr "1")].

Definition sample_empty_geocodes : dict :=
  [("status", VStr "1"); ("count", VStr "1"); ("geocodes", VList [])].

Definition sample_no_location : dict :=
  [("status", VStr "1"); ("count", VStr "1");
   ("geocodes", VList [VDict [("level", VStr "city")]])].

Definition sample_walk : dict :=
  [("status", VStr "1");
   ("route", VDict [("paths", VList [VDict [("distance", VStr "1000");
                                            ("steps", VList [])]])])].

(** ** Sample routes *)

Definition path_one_kilometre : dict :=
  [("distance", VStr "1000"); ("steps", VList [])].

(** [{route: {paths: [{distance: "1000", steps: []}]}}]. *)
Definition route_one_kilometre : value :=
  VDict [("route", VDict [("paths", VList [VDict path_one_kilometre])])].

(** A path with a cost block of 90 seconds. *)
Definition path_ninety_seconds : dict :=
  [("distance", VStr "120");
   ("cost", VDict [("duration", VStr "90")]);
   ("steps", VList [])].

Definition route_ninety_seconds : value :=
  VDict [("route", VDict [("paths", VList [VDict path_ninety_seconds])])].


(** A path without its [distance]. *)
Definition route_without_distance : value :=
  VDict [("route", VDict [("paths", VList [VDict [("steps", VList [])]])])].

(** A step without its [instruction]. *)
Definition route_without_instruction : value :=
  VDict [("route",
          VDict [("paths",
                  VList [VDict [("distance", VStr "1000");
                                ("steps",
                                 VList [VDict [("step_distance",
                                                VStr "10")]])]])])].

(** One path of 5000 metres and 3600 seconds with two steps: the first has
    a road name and an action, the second has neither. *)
Definition two_steps : list value :=
  [ VDict [("instruction", VStr "turn left");
           ("road_name", VStr "Main Street");
           ("step_distance", VStr "120");
           ("navi", VDict [("action", VStr "L")])];
    VDict [("instruction", VStr "go on");
           ("step_distance", VStr "4880");
           ("navi", VDict [("action", VStr "")])] ].

Definition path_two_steps : dict :=
  [("distance", VStr "5000");
   ("cost", VDict [("duration", VStr "3600")]);
   ("steps", VList two_steps)].

Definition route_two_steps : value :=
  VDict [("status", VStr "1");
         ("route", VDict [("paths", VList [VDict path_two_steps])])].

(** ** Sample quotients *)

(** The quotient of two ints as IEEE 754 division of the Standard Library
    computes it, to compare [int_truediv] with on operands that are
    doubles themselves and on larger ones. *)
Definition as_float (z : Z) : spec_float :=
  match z with
  | Z0 => S754_zero false
  | Zpos p => S754_finite false p 0
  | Zneg p => S754_finite true p 0
  end.

Definition same_float (x y : spec_float) : bool :=
  match x, y with
  | S754_zero s, S754_zero s' => Bool.eqb s s'
  | S754_infinity s, S754_infinity s' => Bool.eqb s s'
  | S754_nan, S754_nan => true
  | S754_finite s m e, S754_finite s' m' e' =>
      Bool.eqb s s' && Pos.eqb m m' && Z.eqb e e'
  | _, _ => false
  end.

(** An infinite IEEE quotient is Python's [OverflowError]. *)
Definition agrees_with_ieee (a b : Z) : bool :=
  match int_truediv a b, SFdiv 53 1024 (as_float a) (as_float b) with
  | inr x, S754_infinity _ => false
  | inr x, y => same_float x y
  | inl OverflowError, S754_infinity _ => true
  | inl _, _ => false
  end.

Definition sample_operands : list Z :=
  [0; 1; 2; 3; 7; 9; 10; 15; 45; 60; 90; 255; 256; 257; 999; 1000; 1001;
   3600; 5000; 123456789; -5; -1000;
   2 ^ 52; 2 ^ 53 - 1; 2 ^ 53; 2 ^ 53 + 1; 2 ^ 54 + 3; 2 ^ 60 + 1;
   10 ^ 30; 10 ^ 311; 10 ^ 330;
   2 ^ 1022; 2 ^ 1023; 2 ^ 1074; 2 ^ 1075; 2 ^ 1075 + 1; 3 * 2 ^ 1074;
   (2 ^ 1024 - 2 ^ 970) * 1000 - 1; (2 ^ 1024 - 2 ^ 970) * 1000;
   (2 ^ 1024 - 2 ^ 970) * 1000 + 1; 2 ^ 1024 * 1000].

Definition sample_divisors : list Z :=
  [1; 3; 7; 60; 1000; -3; 2 ^ 53 + 1; 10 ^ 30; 2 ^ 1074; 2 ^ 1075 + 1].

(** ** More samples *)

(** The route of [route_two_steps] among other fields and other paths. *)
Definition route_two_steps_and_more : value :=
  VDict [("info", VStr "OK");
         ("route",
          VDict [("origin", VStr "116.1,39.9");
                 ("paths", VList [VDict path_two_steps;
                                  VDict path_one_kilometre;
                                  VStr "not a path"])])].




(** A path of [2 ^ 1024] kilometres, as a JSON number. *)
Definition path_too_long : dict :=
  [("distance", VInt (2 ^ 1024 * 1000)); ("steps", VList [])].

Definition route_too_long : value :=
  VDict [("route", VDict [("paths", VList [VDict path_too_long])])].


(** A step whose distance is written in full-width digits, and one whose
    distance is an int of 4301 digits. *)
Definition step_full_width : value :=
  VDict [("instruction", VStr "go on"); ("step_distance", VStr "１２０")].

Definition step_beyond_digit_limit : value :=
  VDict [("instruction", VStr "go on");
         ("step_distance", VInt (10 ^ max_str_digits))].

(** A step whose action is such an int. *)
Definition step_action_beyond_digit_limit : value :=
  VDict [("instruction", VStr "go on");
         ("step_distance", VStr "120");
         ("navi", VDict [("action", VInt (10 ^ max_str_digits))])].

(** Texts that [int] reads, and texts that it refuses. *)
Definition no_break_space : string :=
  String (ascii_of_N 194) (String (ascii_of_N 160) EmptyString).

Definition sample_literals : list string :=
  [ "120"; " +12 "; "-7"; "1_000"; "007"; "１２０"; "٣٤"; "-１_２";
    (no_break_space ++ "12" ++ no_break_space)%string; "𝟏𝟐" ].

Definition sample_non_literals : list string :=
  [ ""; " "; "12a"; "1__2"; "_1"; "1_"; "1 2"; "+-1"; "1.5"; "²"; "Ⅷ";
    "一"; String (ascii_of_N 28) "1"; String (ascii_of_N 127) "1" ].

(** A service that knows the geocoding endpoint only. *)
Definition geocoding_only_service : network :=
  fun req =>
    if String.eqb (req_url req) "https://restapi.amap.com/v3/geocode/geo"
    then inr {| json := inr (VDict sample_geocodes) |}
    else inl (RequestException "not found").

(** * Properties *)

(** ** The monad *)

Lemma try_except_returns {A} (m : M A) (h : exn -> M A) :
  (forall e, returns (h e)) -> returns (try_except m h).
Proof.
  intros Hh. destruct m as [out [e | a]]; unfold returns, result; simpl.
  - destruct (Hh e) as [a Ha]. unfold result in Ha.
    destruct (h e) as [out' r]; simpl in *. now exists a.
  - now exists a.
Qed.

Lemma output_bind {A B} (m : M A) (f : A -> M B) :
  output (bind m f)
  = output m ++ match result m with
                | inr a => output (f a)
                | inl _ => []
                end.
Proof.
  destruct m as [out [e | a]]; unfold output, result; simpl.
  - now rewrite app_nil_r.
  - now destruct (f a).
Qed.

(** ** Strings *)

Lemma append_empty_r (s : string) : (s ++ "")%string = s.
Proof. induction s as [| c s IH]; simpl; [reflexivity | now rewrite IH]. Qed.

(** ** Comparison with a string literal *)

Lemma eq_str_true (v : value) (k : string) :
  eq_str v k = true <-> v = VStr k.
Proof.
  destruct v; simpl; try (split; [discriminate | discriminate]).
  rewrite String.eqb_eq. split; [now intros -> | now intros [= ->]].
Qed.

Lemma eq_str_false (v : value) (k : string) :
  eq_str v k = false <-> v <> VStr k.
Proof.
  rewrite <- eq_str_true. destruct (eq_str v k); split; congruence.
Qed.

Lemma subscript_inr (v : value) (k : string) (x : value) :
  subscript v k = inr x <-> exists d, v = VDict d /\ dict_get k d = Some x.
Proof.
  split.
  - destruct v; simpl; try discriminate.
    destruct (dict_get k d) eqn:E; [intros [= ->] | discriminate].
    now exists d.
  - intros (d & -> & H). simpl. now rewrite H.
Qed.

(** ** Geocoding *)

Section GeocodeProperties.

Variable requests_get : network.
Variable self : AmapNavigation.
Variable address : string.

(** Whatever stops the [try] block is reported and turned into [None]. *)
Lemma geocode_absorbs (out : list text) (e : exn) :
  geocode_try requests_get self address = (out, inl e) ->
  geocode requests_get self address
  = (out ++ [ [Lit "地址转换异常: "; FmtExn e] ], inr VNone).
Proof. unfold geocode. now intros ->. Qed.

Lemma geocode_returns : returns (geocode requests_get self address).
Proof.
  unfold geocode. apply try_except_returns.
  intros e. now exists VNone.
Qed.

(** A body without a [status] field: the [KeyError] is absorbed like any
    other exception, and the report names the key, not the address. *)
Lemma geocode_without_status (resp : response) (d : dict) :
  requests_get (geocode_request self address) = inr resp ->
  json resp = inr (VDict d) ->
  dict_get "status" d = None ->
  geocode requests_get self address
  = ([ [Lit "地址转换异常: "; FmtExn (KeyError (VStr "status"))] ],
     inr VNone).
Proof.
  intros Hget Hjson Hstatus. unfold geocode, geocode_try.
  rewrite Hget. simpl. rewrite Hjson. simpl. now rewrite Hstatus.
Qed.

End GeocodeProperties.

(** C1. When the body has status "1" and a count other than "0", [geocode]
    returns the [location] of the first entry of [geocodes] as it is, a
    string in particular, and prints nothing. *)
Theorem geocode_returns_first_location
    (requests_get : network) (self : AmapNavigation) (address : string)
    (resp : response) (d entry : dict) (count : value) (rest : list value)
    (location : value) :
  requests_get (geocode_request self address) = inr resp ->
  json resp = inr (VDict d) ->
  dict_get "status" d = Some (VStr "1") ->
  dict_get "count" d = Some count ->
  count <> VStr "0" ->
  dict_get "geocodes" d = Some (VList (VDict entry :: rest)) ->
  dict_get "location" entry = Some location ->
  geocode requests_get self address = ([], inr location).
Proof.
  intros Hget Hjson Hstatus Hcount Hnz Hgeo Hloc.
  apply eq_str_false in Hnz.
  unfold geocode, geocode_try.
  rewrite Hget. simpl. rewrite Hjson. simpl. rewrite Hstatus. simpl.
  rewrite Hcount. simpl. rewrite Hnz. simpl. rewrite Hgeo. simpl.
  now rewrite Hloc.
Qed.

Lemma geocode_returns_first_location_witness :
  geocode (constant_service (VDict sample_geocodes)) (init "k") "A"
  = ([], inr (VStr "116.1,39.9")).
Proof.
  apply (geocode_returns_first_location
           (constant_service (VDict sample_geocodes)) (init "k") "A"
           {| json := inr (VDict sample_geocodes) |} sample_geocodes
           [("location", VStr "116.1,39.9")] (VStr "1") []);
    try reflexivity.
  discriminate.
Defined.

(** C2. When the body has a status other than "1", or status "1" and count
    "0", [geocode] returns [None] and prints a line with the address, then
    the body; when the request or the parsing of the body raises, it returns
    [None] and prints the exception; and in every case it returns. *)
Theorem geocode_failure_gives_none
    (requests_get : network) (self : AmapNavigation) (address : string) :
  returns (geocode requests_get self address)
  /\ (forall resp d status,
        requests_get (geocode_request self address) = inr resp ->
        json resp = inr (VDict d) ->
        dict_get "status" d = Some status ->
        status <> VStr "1" \/ dict_get "count" d = Some (VStr "0") ->
        geocode requests_get self address
        = ([ [Lit "地址转换失败: "; Fmt (VStr address)];
             [Lit "错误信息: "; Fmt (VDict d)] ],
           inr VNone)
        /\ render [Lit "地址转换失败: "; Fmt (VStr address)]
           = Some ("地址转换失败: " ++ address)%string)
  /\ (forall e,
        requests_get (geocode_request self address) = inl e ->
        geocode requests_get self address
        = ([ [Lit "地址转换异常: "; FmtExn e] ], inr VNone))
  /\ (forall resp e,
        requests_get (geocode_request self address) = inr resp ->
        json resp = inl e ->
        geocode requests_get self address
        = ([ [Lit "地址转换异常: "; FmtExn e] ], inr VNone)).
Proof.
  split; [apply geocode_returns |].
  split; [| split].
  - intros resp d status Hget Hjson Hstatus Hfail. split.
    + unfold geocode, geocode_try.
      rewrite Hget. simpl. rewrite Hjson. simpl. rewrite Hstatus. simpl.
      destruct (eq_str status "1") eqn:E; [| reflexivity].
      destruct Hfail as [Hne | Hzero].
      * apply eq_str_true in E. contradiction.
      * simpl. now rewrite Hzero.
    + simpl. now rewrite append_empty_r.
  - intros e Hget. apply (geocode_absorbs _ _ _ []).
    unfold geocode_try. now rewrite Hget.
  - intros resp e Hget Hjson. apply (geocode_absorbs _ _ _ []).
    unfold geocode_try. rewrite Hget. simpl. now rewrite Hjson.
Qed.

Lemma geocode_failure_gives_none_witness :
  geocode (constant_service (VDict sample_refusal)) (init "k") "A"
  = ([ [Lit "地址转换失败: "; Fmt (VStr "A")];
       [Lit "错误信息: "; Fmt (VDict sample_refusal)] ],
     inr VNone)
  /\ geocode (constant_service (VDict sample_no_match)) (init "k") "A"
     = ([ [Lit "地址转换失败: "; Fmt (VStr "A")];
          [Lit "错误信息: "; Fmt (VDict sample_no_match)] ],
        inr VNone)
  /\ result (geocode unreachable_service (init "k") "A") = inr VNone
  /\ result (geocode garbled_service (init "k") "A") = inr VNone.
Proof.
  split; [| split; [| split]].
  - destruct (geocode_failure_gives_none
                (constant_service (VDict sample_refusal)) (init "k") "A")
      as (_ & H & _).
    apply (H {| json := inr (VDict sample_refusal) |} sample_refusal
             (VStr "0")); try reflexivity.
    left. discriminate.
  - destruct (geocode_failure_gives_none
                (constant_service (VDict sample_no_match)) (init "k") "A")
      as (_ & H & _).
    apply (H {| json := inr (VDict sample_no_match) |} sample_no_match
             (VStr "1")); try reflexivity.
    right. reflexivity.
  - destruct (geocode_failure_gives_none unreachable_service (init "k") "A")
      as (_ & _ & H & _).
    now rewrite (H (RequestException "connection refused")).
  - destruct (geocode_failure_gives_none garbled_service (init "k") "A")
      as (_ & _ & _ & H).
    now rewrite (H {| json := inl (JSONDecodeError "Expecting value") |}
                   (JSONDecodeError "Expecting value")).
Defined.

(** C9. With status "1" and a count other than "0", a body whose [geocodes]
    is missing or empty, or whose first entry has no [location], makes the
    lookup raise inside the [try] block: [geocode] prints the exception
    report and returns [None]. *)
Theorem geocode_absorbs_lookup_failure
    (requests_get : network) (self : AmapNavigation) (address : string)
    (resp : response) (d : dict) (count : value) :
  requests_get (geocode_request self address) = inr resp ->
  json resp = inr (VDict d) ->
  dict_get "status" d = Some (VStr "1") ->
  dict_get "count" d = Some count ->
  count <> VStr "0" ->
  (dict_get "geocodes" d = None ->
   geocode requests_get self address
   = ([ [Lit "地址转换异常: "; FmtExn (KeyError (VStr "geocodes"))] ],
      inr VNone))
  /\ (dict_get "geocodes" d = Some (VList []) ->
      geocode requests_get self address
      = ([ [Lit "地址转换异常: "; FmtExn IndexError] ], inr VNone))
  /\ (forall entry rest,
        dict_get "geocodes" d = Some (VList (VDict entry :: rest)) ->
        dict_get "location" entry = None ->
        geocode requests_get self address
        = ([ [Lit "地址转换异常: "; FmtExn (KeyError (VStr "location"))] ],
           inr VNone))
  /\ (forall geocodes e,
        dict_get "geocodes" d = Some geocodes ->
        (subscript0 geocodes = inl e
         \/ exists first, subscript0 geocodes = inr first
                          /\ subscript first "location" = inl e) ->
        geocode requests_get self address
        = ([ [Lit "地址转换异常: "; FmtExn e] ], inr VNone)).
Proof.
  intros Hget Hjson Hstatus Hcount Hnz. apply eq_str_false in Hnz.
  assert (Hgen : forall out e,
    (geocodes <- lift (subscript (VDict d) "geocodes") ;;
     first <- lift (subscript0 geocodes) ;;
     location <- lift (subscript first "location") ;;
     ret location) = (out, inl e) ->
    geocode requests_get self address
    = (out ++ [ [Lit "地址转换异常: "; FmtExn e] ], inr VNone)).
  { intros out e H. apply geocode_absorbs. unfold geocode_try.
    rewrite Hget. simpl. rewrite Hjson. simpl. rewrite Hstatus. simpl.
    rewrite Hcount. simpl. rewrite Hnz. simpl. simpl in H.
    destruct (dict_get "geocodes" d) as [g |]; simpl in *.
    - destruct (subscript0 g) as [e0 | first]; simpl in *; [exact H |].
      destruct (subscript first "location"); simpl in *; [exact H |].
      discriminate.
    - exact H. }
  split; [| split; [| split]].
  - intros Hgeo. apply (Hgen []). simpl. now rewrite Hgeo.
  - intros Hgeo. apply (Hgen []). simpl. now rewrite Hgeo.
  - intros entry rest Hgeo Hloc. apply (Hgen []). simpl. rewrite Hgeo.
    simpl. now rewrite Hloc.
  - intros geocodes e Hgeo [H0 | (first & H0 & Hloc)];
      apply (Hgen []); simpl; rewrite Hgeo; simpl; rewrite H0; simpl.
    + reflexivity.
    + now rewrite Hloc.
Qed.

Lemma geocode_absorbs_lookup_failure_witness :
  geocode (constant_service (VDict sample_no_geocodes)) (init "k") "A"
  = ([ [Lit "地址转换异常: "; FmtExn (KeyError (VStr "geocodes"))] ],
     inr VNone)
  /\ geocode (constant_service (VDict sample_empty_geocodes)) (init "k") "A"
     = ([ [Lit "地址转换异常: "; FmtExn IndexError] ], inr VNone)
  /\ geocode (constant_service (VDict sample_no_location)) (init "k") "A"
     = ([ [Lit "地址转换异常: "; FmtExn (KeyError (VStr "location"))] ],
        inr VNone).
Proof.
  assert (Hnz : VStr "1" <> VStr "0") by discriminate.
  split; [| split].
  - apply (geocode_absorbs_lookup_failure
             (constant_service (VDict sample_no_geocodes)) (init "k") "A"
             {| json := inr (VDict sample_no_geocodes) |} sample_no_geocodes
             (VStr "1") eq_refl eq_refl eq_refl eq_refl Hnz).
    reflexivity.
  - apply (geocode_absorbs_lookup_failure
             (constant_service (VDict sample_empty_geocodes)) (init "k") "A"
             {| json := inr (VDict sample_empty_geocodes) |}
             sample_empty_geocodes
             (VStr "1") eq_refl eq_refl eq_refl eq_refl Hnz).
    reflexivity.
  - apply (geocode_absorbs_lookup_failure
             (constant_service (VDict sample_no_location)) (init "k") "A"
             {| json := inr (VDict sample_no_location) |}
             sample_no_location
             (VStr "1") eq_refl eq_refl eq_refl eq_refl Hnz)
      with (entry := [("level", VStr "city")]) (rest := @nil value);
      reflexivity.
Defined.

(** ** Fetching a route *)

Section WalkingProperties.

Variable requests_get : network.
Variable self : AmapNavigation.
Variables origin destination : value.

Lemma walking_absorbs (out : list text) (e : exn) :
  get_walking_navigation_try requests_get self origin destination
  = (out, inl e) ->
  get_walking_navigation requests_get self origin destination
  = (out ++ [ [Lit "获取步行导航路线异常: "; FmtExn e] ], inr VNone).
Proof. unfold get_walking_navigation. now intros ->. Qed.

Lemma walking_returns :
  returns (get_walking_navigation requests_get self origin destination).
Proof.
  unfold get_walking_navigation. apply try_except_returns.
  intros e. now exists VNone.
Qed.

(** The three ways a parsed body is handled. *)
Lemma walking_on_body (resp : response) (body : value) :
  requests_get (walking_request self origin destination) = inr resp ->
  json resp = inr body ->
  get_walking_navigation requests_get self origin destination
  = match subscript body "status" with
    | inr status =>
        if eq_str status "1" then ([], inr body)
        else ([ [Lit "获取步行导航路线失败"];
                [Lit "错误信息: "; Fmt body] ], inr VNone)
    | inl e => ([ [Lit "获取步行导航路线异常: "; FmtExn e] ], inr VNone)
    end.
Proof.
  intros Hget Hjson.
  unfold get_walking_navigation, get_walking_navigation_try.
  rewrite Hget. simpl. rewrite Hjson. simpl.
  destruct (subscript body "status") as [e | status]; simpl;
    [reflexivity |].
  now destruct (eq_str status "1").
Qed.

End WalkingProperties.

(** C3. [get_walking_navigation] returns the parsed body, as it is and
    without printing, exactly when the status of the body is "1"; with any
    other status, with no status, and when the request or the parsing
    raises, it returns [None]; and in every case it returns. *)
Theorem walking_navigation_body_iff_status
    (requests_get : network) (self : AmapNavigation)
    (origin destination : value) :
  returns (get_walking_navigation requests_get self origin destination)
  /\ (forall resp body,
        requests_get (walking_request self origin destination) = inr resp ->
        json resp = inr body ->
        (get_walking_navigation requests_get self origin destination
         = ([], inr body)
         <-> subscript body "status" = inr (VStr "1"))
        /\ (subscript body "status" <> inr (VStr "1") ->
            result (get_walking_navigation requests_get self
                      origin destination) = inr VNone)
        /\ (forall status,
              subscript body "status" = inr status ->
              status <> VStr "1" ->
              get_walking_navigation requests_get self origin destination
              = ([ [Lit "获取步行导航路线失败"];
                   [Lit "错误信息: "; Fmt body] ], inr VNone)))
  /\ (forall e,
        requests_get (walking_request self origin destination) = inl e ->
        get_walking_navigation requests_get self origin destination
        = ([ [Lit "获取步行导航路线异常: "; FmtExn e] ], inr VNone))
  /\ (forall resp e,
        requests_get (walking_request self origin destination) = inr resp ->
        json resp = inl e ->
        get_walking_navigation requests_get self origin destination
        = ([ [Lit "获取步行导航路线异常: "; FmtExn e] ], inr VNone)).
Proof.
  split; [apply walking_returns |].
  split; [| split].
  - intros resp body Hget Hjson.
    rewrite (walking_on_body _ _ _ _ resp body Hget Hjson).
    destruct (subscript body "status") as [e | status].
    + split; [| split].
      * split; discriminate.
      * reflexivity.
      * discriminate.
    + destruct (eq_str status "1") eqn:E.
      * apply eq_str_true in E. subst status.
        split; [| split]; [easy | congruence | congruence].
      * apply eq_str_false in E.
        split; [| split]; [| reflexivity | reflexivity].
        split; [discriminate | congruence].
  - intros e Hget. apply (walking_absorbs _ _ _ _ []).
    unfold get_walking_navigation_try. now rewrite Hget.
  - intros resp e Hget Hjson. apply (walking_absorbs _ _ _ _ []).
    unfold get_walking_navigation_try. rewrite Hget. simpl.
    now rewrite Hjson.
Qed.

Lemma walking_navigation_body_iff_status_witness :
  get_walking_navigation (constant_service (VDict sample_walk)) (init "k")
    (VStr "116.1,39.9") (VStr "116.2,39.8")
  = ([], inr (VDict sample_walk))
  /\ get_walking_navigation (constant_service (VDict sample_refusal))
       (init "k") (VStr "116.1,39.9") (VStr "116.2,39.8")
     = ([ [Lit "获取步行导航路线失败"];
          [Lit "错误信息: "; Fmt (VDict sample_refusal)] ], inr VNone)
  /\ result (get_walking_navigation unreachable_service (init "k")
               (VStr "116.1,39.9") (VStr "116.2,39.8")) = inr VNone
  /\ result (get_walking_navigation garbled_service (init "k")
               (VStr "116.1,39.9") (VStr "116.2,39.8")) = inr VNone.
Proof.
  split; [| split; [| split]].
  - destruct (walking_navigation_body_iff_status
                (constant_service (VDict sample_walk)) (init "k")
                (VStr "116.1,39.9") (VStr "116.2,39.8")) as (_ & H & _).
    destruct (H {| json := inr (VDict sample_walk) |} (VDict sample_walk)
                eq_refl eq_refl) as (Hiff & _).
    apply Hiff. reflexivity.
  - destruct (walking_navigation_body_iff_status
                (constant_service (VDict sample_refusal)) (init "k")
                (VStr "116.1,39.9") (VStr "116.2,39.8")) as (_ & H & _).
    destruct (H {| json := inr (VDict sample_refusal) |}
                (VDict sample_refusal) eq_refl eq_refl) as (_ & _ & Hother).
    apply (Hother (VStr "0")); [reflexivity | discriminate].
  - destruct (walking_navigation_body_iff_status unreachable_service
                (init "k") (VStr "116.1,39.9") (VStr "116.2,39.8"))
      as (_ & _ & H & _).
    now rewrite (H (RequestException "connection refused")).
  - destruct (walking_navigation_body_iff_status garbled_service
                (init "k") (VStr "116.1,39.9") (VStr "116.2,39.8"))
      as (_ & _ & _ & H).
    now rewrite (H {| json := inl (JSONDecodeError "Expecting value") |}
                   (JSONDecodeError "Expecting value")).
Defined.

(** ** Reading back a printed int *)

Lemma parse_digits_uint (room acc : Z) (u : Decimal.uint) :
  Z.of_nat (Decimal.nb_digits u) <= room ->
  parse_digits room acc (NilEmpty.string_of_uint u)
  = Some (uint_value acc u).
Proof.
  revert room acc. induction u; intros room acc Hroom;
    try reflexivity;
    cbn [Decimal.nb_digits] in Hroom; rewrite Nat2Z.inj_succ in Hroom;
    cbn -[Z.mul Z.add Z.sub Z.ltb];
    (replace (0 <? room) with true by (symmetry; apply Z.ltb_lt; lia));
    apply IHu; lia.
Qed.

Lemma uint_value_lower (acc : Z) (u : Decimal.uint) :
  0 <= acc ->
  acc * 10 ^ Z.of_nat (Decimal.nb_digits u) <= uint_value acc u.
Proof.
  revert acc. induction u; intros acc Hacc;
    [simpl; lia | ..];
    cbn [uint_value Decimal.nb_digits];
    rewrite Nat2Z.inj_succ, Z.pow_succ_r by lia;
    (etransitivity; [| apply IHu; lia]);
    assert (0 < 10 ^ Z.of_nat (Decimal.nb_digits u))
      by (apply Z.pow_pos_nonneg; lia);
    nia.
Qed.

Lemma of_uint_acc_value (u : Decimal.uint) (acc : positive) :
  Z.pos (Pos.of_uint_acc u acc) = uint_value (Z.pos acc) u.
Proof.
  revert acc. induction u; intros acc; cbn [Pos.of_uint_acc uint_value];
    [reflexivity | ..]; rewrite IHu; f_equal; lia.
Qed.

Lemma of_uint_value (u : Decimal.uint) :
  Z.of_N (Pos.of_uint u) = uint_value 0 u.
Proof.
  induction u; cbn [Pos.of_uint uint_value]; try reflexivity;
    try exact IHu;
    cbn [Z.of_N]; now rewrite of_uint_acc_value.
Qed.

Lemma to_uint_value (p : positive) :
  uint_value 0 (Pos.to_uint p) = Z.pos p.
Proof.
  now rewrite <- of_uint_value, DecimalPos.Unsigned.of_to.
Qed.

(** The decimal digits of a positive number do not start with a zero. *)
Lemma to_uint_head (p : positive) (u : Decimal.uint) :
  Pos.to_uint p <> Decimal.D0 u.
Proof.
  pose proof (DecimalPos.Unsigned.to_of (Pos.to_uint p)) as Hnorm.
  rewrite DecimalPos.Unsigned.of_to in Hnorm. simpl in Hnorm.
  pose proof (DecimalPos.Unsigned.to_uint_nonzero p) as Hnz.
  intros E.
  apply (DecimalFacts.nzhead_nonzero (Pos.to_uint p) u).
  destruct (Decimal.uint_eq_dec (Decimal.nzhead (Pos.to_uint p))
              Decimal.Nil) as [Hnil | Hnn].
  - unfold Decimal.unorm in Hnorm. rewrite Hnil in Hnorm.
    now rewrite <- Hnorm in Hnz.
  - rewrite <- (DecimalFacts.unorm_nzhead _ Hnn), <- Hnorm. exact E.
Qed.

(** So their number is bounded by the size of the number. *)
Lemma to_uint_digits (p : positive) (n : Z) :
  0 <= n -> Z.pos p < 10 ^ n ->
  Z.of_nat (Decimal.nb_digits (Pos.to_uint p)) <= n.
Proof.
  intros Hn Hlt.
  pose proof (to_uint_value p) as Hval.
  pose proof (to_uint_head p) as Hhead.
  destruct (Z.le_gt_cases (Z.of_nat (Decimal.nb_digits (Pos.to_uint p))) n)
    as [Hle | Hgt]; [exact Hle | exfalso].
  assert (Hlow : 10 ^ n <= uint_value 0 (Pos.to_uint p)).
  { destruct (Pos.to_uint p) as [| u | u | u | u | u | u | u | u | u | u];
      [simpl in Hgt; lia | now destruct (Hhead u) | ..];
      cbn [uint_value]; cbn [Decimal.nb_digits] in Hgt;
      rewrite Nat2Z.inj_succ in Hgt;
      (etransitivity; [| apply uint_value_lower; lia]);
      (assert (Hpow : 10 ^ n <= 10 ^ Z.of_nat (Decimal.nb_digits u))
         by (apply Z.pow_le_mono_r; lia));
      lia. }
  lia.
Qed.

Lemma parse_unsigned_to_uint (p : positive) :
  Z.pos p < 10 ^ max_str_digits ->
  parse_unsigned (NilEmpty.string_of_uint (Pos.to_uint p)) = Some (Z.pos p).
Proof.
  intros Hp.
  assert (H0 : 0 <= max_str_digits) by (unfold max_str_digits; lia).
  pose proof (to_uint_digits p max_str_digits H0 Hp) as Hdigits.
  pose proof (to_uint_value p) as Hval.
  pose proof (DecimalPos.Unsigned.to_uint_nonnil p) as Hnil.
  clear Hp H0.
  destruct (Pos.to_uint p) as [| u | u | u | u | u | u | u | u | u | u];
    [contradiction | ..];
    cbn [Decimal.nb_digits] in Hdigits; rewrite Nat2Z.inj_succ in Hdigits;
    cbn [uint_value] in Hval;
    cbn [NilEmpty.string_of_uint]; unfold parse_unsigned;
    match goal with
    | |- context [digit_of ?c] =>
        let d := eval vm_compute in (digit_of c) in
        change (digit_of c) with d
    end;
    cbv iota; (rewrite parse_digits_uint by lia);
    now rewrite <- Hval.
Qed.

Lemma parse_ascii_int_minus (r : string) :
  parse_ascii_int (String "-" r) = option_map Z.opp (parse_unsigned r).
Proof. reflexivity. Qed.

Lemma parse_ascii_int_dec (z : Z) :
  Z.abs z < 10 ^ max_str_digits -> parse_ascii_int (dec z) = Some z.
Proof.
  intros Hz. unfold dec. destruct z as [| p | p].
  - reflexivity.
  - pose proof (parse_unsigned_to_uint p Hz) as Hparse.
    pose proof (DecimalPos.Unsigned.to_uint_nonnil p) as Hnil.
    clear Hz.
    cbn [Z.to_int Pos.to_int NilZero.string_of_int].
    unfold NilZero.string_of_uint, parse_ascii_int.
    destruct (Pos.to_uint p) as [| u | u | u | u | u | u | u | u | u | u];
      [contradiction | ..]; exact Hparse.
  - pose proof (parse_unsigned_to_uint p Hz) as Hparse.
    pose proof (DecimalPos.Unsigned.to_uint_nonnil p) as Hnil.
    clear Hz.
    cbn [Z.to_int NilZero.string_of_int].
    rewrite parse_ascii_int_minus. unfold NilZero.string_of_uint.
    destruct (Pos.to_uint p) as [| u | u | u | u | u | u | u | u | u | u];
      [contradiction | ..]; now rewrite Hparse.
Qed.

(** A string of ASCII characters is read as it is. *)
Lemma to_ascii_below (c : ascii) (r : string) :
  (N_of_ascii c <? 127)%N = true ->
  to_ascii (String c r) = push (Some c) (to_ascii r).
Proof. intros H. simpl. now rewrite H. Qed.

Lemma to_ascii_uint (u : Decimal.uint) :
  to_ascii (NilEmpty.string_of_uint u) = Some (NilEmpty.string_of_uint u).
Proof.
  induction u; cbn [NilEmpty.string_of_uint]; [reflexivity | ..];
    (rewrite to_ascii_below by reflexivity); now rewrite IHu.
Qed.

Lemma to_ascii_dec (z : Z) : to_ascii (dec z) = Some (dec z).
Proof.
  unfold dec.
  destruct (Z.to_int z) as [u | u]; cbn [NilZero.string_of_int].
  - unfold NilZero.string_of_uint.
    destruct u; [reflexivity | ..]; apply to_ascii_uint.
  - rewrite to_ascii_below by reflexivity.
    unfold NilZero.string_of_uint.
    destruct u; [reflexivity | ..]; now rewrite to_ascii_uint.
Qed.

(** [int(str(z))] is [z] for every int that has at most 4300 digits. *)
Lemma parse_int_dec (z : Z) :
  Z.abs z < 10 ^ max_str_digits -> parse_int (dec z) = Some z.
Proof.
  intros Hz. unfold parse_int. rewrite to_ascii_dec.
  now apply parse_ascii_int_dec.
Qed.

(** A distance or duration written in decimal is accepted as long as it is
    in the range of a double. *)
Lemma measure_ok_dec (z : Z) :
  Z.abs z < 2 ^ 1024 -> measure_ok (VStr (dec z)) = true.
Proof.
  intros Hz. unfold measure_ok, py_int.
  assert (Hpow : 2 ^ 1024 < 10 ^ max_str_digits)
    by (apply Z.ltb_lt; vm_compute; reflexivity).
  rewrite parse_int_dec by (eapply Z.lt_trans; eassumption).
  unfold in_double_range. now apply Z.ltb_lt.
Qed.

(** ** Division into a float *)

Lemma round_half_even_div_nonneg (n d : Z) :
  0 <= n -> 0 < d -> 0 <= round_half_even_div n d.
Proof.
  intros Hn Hd. unfold round_half_even_div.
  assert (0 <= n / d) by (apply Z.div_pos; lia).
  destruct (2 * (n mod d) ?= d); [destruct (Z.even (n / d)) | |]; lia.
Qed.

(** The quotient of an int within the range of a double by a divisor of at
    least 2 is a float: the division does not overflow. *)
Lemma double_of_ratio_in_range (s : bool) (n d : Z) :
  0 < n < 2 ^ 1024 -> 2 <= d ->
  exists x, double_of_ratio s n d = inr x.
Proof.
  intros [Hn Hbound] Hd. unfold double_of_ratio.
  set (k := Z.log2 n - Z.log2 d).
  set (lg := if n * 2 ^ Z.max 0 (- k) <? d * 2 ^ Z.max 0 k
             then k - 1 else k).
  set (e := Z.max (lg - 52) (-1074)).
  set (m := round_half_even_div (n * 2 ^ Z.max 0 (- e)) (d * 2 ^ Z.max 0 e)).
  assert (Hk : k <= 1022).
  { assert (Z.log2 n < 1024) by (apply Z.log2_lt_pow2; lia).
    assert (1 <= Z.log2 d)
      by (change 1 with (Z.log2 2); apply Z.log2_le_mono; lia).
    unfold k. lia. }
  assert (Hlg : lg <= 1022) by (unfold lg; destruct (_ <? _); lia).
  assert (He : e <= 970) by (unfold e; lia).
  assert (Hm : 0 <= m).
  { apply round_half_even_div_nonneg.
    - apply Z.mul_nonneg_nonneg; [lia |].
      apply Z.pow_nonneg. lia.
    - apply Z.mul_pos_pos; [lia |].
      apply Z.pow_pos_nonneg; lia. }
  destruct (m =? 2 ^ 53) eqn:Ecarry.
  - change (2 ^ 52) with (Z.pos (2 ^ 52)).
    cbv iota beta.
    assert (Hle : (e + 1 <=? 971) = true) by (apply Z.leb_le; lia).
    rewrite Hle. eauto.
  - destruct m as [| p | p]; [eauto | | lia].
    assert (Hle : (e <=? 971) = true) by (apply Z.leb_le; lia).
    rewrite Hle. eauto.
Qed.

Lemma int_truediv_in_range (z d : Z) :
  in_double_range z = true -> 2 <= d ->
  exists x, int_truediv z d = inr x.
Proof.
  unfold in_double_range, int_truediv. intros Hz Hd.
  apply Z.ltb_lt in Hz.
  destruct (d =? 0) eqn:E0; [apply Z.eqb_eq in E0; lia |].
  destruct (z =? 0) eqn:Ez; [eauto |].
  apply Z.eqb_neq in Ez.
  apply double_of_ratio_in_range; lia.
Qed.

Lemma measure_ok_quotient (v : value) (d : Z) :
  measure_ok v = true -> 2 <= d ->
  exists z x, py_int v = inr z /\ int_truediv z d = inr x
              /\ quotient_of v d = Some x.
Proof.
  unfold measure_ok, quotient_of. intros Hv Hd.
  destruct (py_int v) as [e | z]; [discriminate |].
  destruct (int_truediv_in_range z d Hv Hd) as [x Hx].
  exists z, x. now rewrite Hx.
Qed.

(** On the sample operands, divided by the sample divisors, [int_truediv]
    gives the double that IEEE 754 division gives, subnormal results and
    overflow included. *)
Example int_truediv_agrees_with_ieee :
  forallb (fun ab => agrees_with_ieee (fst ab) (snd ab))
          (list_prod sample_operands sample_divisors) = true.
Proof. vm_compute. reflexivity. Qed.

Example fixed1_samples :
  map (fun metres => option_map fixed1 (quotient_of (VInt metres) 1000))
      [0; 1; 49; 50; 51; 1000; 1049; 1050; 1150; 1250; 5000; 123456; -1]
  = map Some ["0.0"; "0.0"; "0.0"; "0.1"; "0.1"; "1.0"; "1.0"; "1.1"; "1.1";
              "1.2"; "5.0"; "123.5"; "-0.0"].
Proof. vm_compute. reflexivity. Qed.

(** ** One decimal place *)

Lemma round_half_even_div_near (n d : Z) :
  0 < d -> Z.abs (2 * d * round_half_even_div n d - 2 * n) <= d.
Proof.
  intros Hd. unfold round_half_even_div.
  pose proof (Z.div_mod n d ltac:(lia)) as Hdm.
  pose proof (Z.mod_pos_bound n d Hd) as Hr.
  set (q := n / d) in *. set (r := n mod d) in *. clearbody q r. subst n.
  destruct (Z.compare_spec (2 * r) d) as [C | C | C].
  - destruct (Z.even q); lia.
  - lia.
  - lia.
Qed.

Lemma fixed1_tenths (x : spec_float) :
  match x with
  | S754_zero false | S754_finite false _ _ =>
      fixed1 x = (dec (tenths_of x / 10) ++ "." ++ dec (tenths_of x mod 10))%string
  | _ => True
  end.
Proof. destruct x as [[|] | | | [|] m e]; exact I || reflexivity. Qed.

(** Rounding [n / d] to a double and the double to tenths stays within half
    a tenth of [n / d], up to the rounding of the double, as long as the
    double keeps nine binary places. *)
Lemma double_of_ratio_tenths (n d : Z) :
  0 < n -> 0 < d -> Z.log2 n - Z.log2 d <= 42 ->
  exists x,
    double_of_ratio false n d = inr x
    /\ match x with
       | S754_zero false | S754_finite false _ _ => True
       | _ => False
       end
    /\ Z.abs (2 * d * tenths_of x - 20 * n) * 512 <= d * 512 + 10 * d.
Proof.
  intros Hn Hd Hk. unfold double_of_ratio.
  set (k := Z.log2 n - Z.log2 d) in *.
  set (lg := if n * 2 ^ Z.max 0 (- k) <? d * 2 ^ Z.max 0 k
             then k - 1 else k).
  set (e := Z.max (lg - 52) (-1074)).
  assert (Hlg : lg <= 42) by (unfold lg; destruct (_ <? _); lia).
  assert (He : -1074 <= e <= -10) by (unfold e; lia).
  replace (Z.max 0 (- e)) with (- e) by lia.
  replace (Z.max 0 e) with 0 by lia.
  rewrite Z.pow_0_r, Z.mul_1_r.
  set (m := round_half_even_div (n * 2 ^ (- e)) d).
  assert (HE : 0 < 2 ^ (- e)) by (apply Z.pow_pos_nonneg; lia).
  assert (Hm : 0 <= m)
    by (apply round_half_even_div_nonneg; [nia | lia]).
  pose proof (round_half_even_div_near (n * 2 ^ (- e)) d Hd) as Hnear.
  fold m in Hnear.
  (* the tenths of [a * 2 ^ e'] for any significand [a] close to the ratio *)
  assert (Hgen : forall (a : positive) (e' : Z),
             e' <= -9 ->
             Z.abs (2 * d * Z.pos a - 2 * (n * 2 ^ (- e'))) <= d ->
             Z.abs (2 * d * tenths a e' - 20 * n) * 512 <= d * 512 + 10 * d).
  { intros a e' He' Ha. unfold tenths.
    destruct (0 <=? e') eqn:E0; [apply Z.leb_le in E0; lia |].
    assert (HE' : 512 <= 2 ^ (- e')).
    { change 512 with (2 ^ 9). apply Z.pow_le_mono_r; lia. }
    pose proof (round_half_even_div_near (10 * Z.pos a) (2 ^ (- e'))
                  ltac:(lia)) as Ht.
    set (t := round_half_even_div (10 * Z.pos a) (2 ^ (- e'))) in *.
    set (E := 2 ^ (- e')) in *.
    assert (Hkey : Z.abs (2 * d * t - 20 * n) * E <= d * E + 10 * d).
    { assert (Hid : (2 * d * t - 20 * n) * E
                    = d * (2 * E * t - 2 * (10 * Z.pos a))
                      + 10 * (2 * d * Z.pos a - 2 * (n * E))) by ring.
      assert (Habs : Z.abs (2 * d * t - 20 * n) * E
                     = Z.abs ((2 * d * t - 20 * n) * E))
        by (rewrite Z.abs_mul, (Z.abs_eq E); lia).
      rewrite Habs, Hid.
      set (X := 2 * E * t - 2 * (10 * Z.pos a)) in *.
      set (Y := 2 * d * Z.pos a - 2 * (n * E)) in *.
      assert (- (d * E) <= d * X <= d * E) by nia.
      lia. }
    nia. }
  destruct (m =? 2 ^ 53) eqn:Ecarry.
  - apply Z.eqb_eq in Ecarry.
    change (2 ^ 52) with (Z.pos (2 ^ 52)). cbv iota beta.
    assert (Hle : (e + 1 <=? 971) = true) by (apply Z.leb_le; lia).
    rewrite Hle. eexists. split; [reflexivity |]. split; [exact I |].
    simpl tenths_of. apply Hgen; [lia |].
    replace (- (e + 1)) with (- e - 1) by lia.
    assert (H2 : 2 ^ (- e) = 2 * 2 ^ (- e - 1)).
    { rewrite <- Z.pow_succ_r by lia. f_equal. lia. }
    rewrite Ecarry, H2 in Hnear.
    change (Z.pos (2 ^ 52)) with (2 ^ 52).
    change (2 ^ 53) with (2 * 2 ^ 52) in Hnear. lia.
  - destruct m as [| p | p]; [| | lia].
    + eexists. split; [reflexivity |]. split; [exact I |].
      simpl tenths_of.
      assert (HE' : 512 <= 2 ^ (- e)).
      { change 512 with (2 ^ 9). apply Z.pow_le_mono_r; lia. }
      nia.
    + assert (Hle : (e <=? 971) = true) by (apply Z.leb_le; lia).
      rewrite Hle. eexists. split; [reflexivity |]. split; [exact I |].
      simpl tenths_of. apply Hgen; [lia | exact Hnear].
Qed.

Lemma int_truediv_pos (z d : Z) :
  0 < z -> 0 < d -> int_truediv z d = double_of_ratio false z d.
Proof.
  intros Hz Hd. unfold int_truediv.
  destruct (d =? 0) eqn:E0; [apply Z.eqb_eq in E0; lia |].
  destruct (z =? 0) eqn:Ez; [apply Z.eqb_eq in Ez; lia |].
  assert (Hzs : (z <? 0) = false) by (apply Z.ltb_ge; lia).
  assert (Hds : (d <? 0) = false) by (apply Z.ltb_ge; lia).
  rewrite Hzs, Hds, !Z.abs_eq by lia. reflexivity.
Qed.

(** Seconds to minutes: what is printed is within half a tenth of
    [secs / 60]. *)
Lemma minutes_one_decimal (secs : Z) (minutes : spec_float) :
  0 <= secs < 2 ^ 48 ->
  int_truediv secs 60 = inr minutes ->
  fixed1 minutes
  = (dec (tenths_of minutes / 10) ++ "."
     ++ dec (tenths_of minutes mod 10))%string
  /\ Z.abs (6 * tenths_of minutes - secs) <= 3.
Proof.
  intros [H0 Hlt] Hdiv.
  destruct (Z.eq_dec secs 0) as [-> | Ez].
  - injection Hdiv as <-. split; [reflexivity | simpl; lia].
  - rewrite int_truediv_pos in Hdiv by lia.
    destruct (double_of_ratio_tenths secs 60) as (x & Hx & Hsign & Hnear).
    + lia.
    + lia.
    + assert (Z.log2 secs < 48) by (apply Z.log2_lt_pow2; lia).
      change (Z.log2 60) with 5. lia.
    + rewrite Hx in Hdiv. injection Hdiv as <-. split.
      * pose proof (fixed1_tenths x) as Hf.
        destruct x as [[|] | | | [|] m e]; try contradiction; exact Hf.
      * lia.
Qed.

(** Metres to kilometres: what is printed is within half a tenth of
    [metres / 1000]. *)
Lemma kilometres_one_decimal (metres : Z) (kilometres : spec_float) :
  0 <= metres < 2 ^ 52 ->
  int_truediv metres 1000 = inr kilometres ->
  fixed1 kilometres
  = (dec (tenths_of kilometres / 10) ++ "."
     ++ dec (tenths_of kilometres mod 10))%string
  /\ Z.abs (100 * tenths_of kilometres - metres) <= 50.
Proof.
  intros [H0 Hlt] Hdiv.
  destruct (Z.eq_dec metres 0) as [-> | Ez].
  - injection Hdiv as <-. split; [reflexivity | simpl; lia].
  - rewrite int_truediv_pos in Hdiv by lia.
    destruct (double_of_ratio_tenths metres 1000)
      as (x & Hx & Hsign & Hnear).
    + lia.
    + lia.
    + assert (Z.log2 metres < 52) by (apply Z.log2_lt_pow2; lia).
      change (Z.log2 1000) with 9. lia.
    + rewrite Hx in Hdiv. injection Hdiv as <-. split.
      * pose proof (fixed1_tenths x) as Hf.
        destruct x as [[|] | | | [|] m e]; try contradiction; exact Hf.
      * lia.
Qed.

(** ** The nearest double *)

(** [lg] in [double_of_ratio] is the binary logarithm of the ratio, rounded
    down: [2 ^ lg <= n / d < 2 ^ (lg + 1)], written without division. *)
Lemma ratio_log2 (n d : Z) :
  0 < n -> 0 < d ->
  let k := Z.log2 n - Z.log2 d in
  let lg := if n * 2 ^ Z.max 0 (- k) <? d * 2 ^ Z.max 0 k
            then k - 1 else k in
  d * 2 ^ Z.max 0 lg <= n * 2 ^ Z.max 0 (- lg)
  /\ n * 2 ^ Z.max 0 (- (lg + 1)) < d * 2 ^ Z.max 0 (lg + 1).
Proof.
  intros Hn Hd k lg.
  destruct (Z.log2_spec n Hn) as [Hn1 Hn2].
  destruct (Z.log2_spec d Hd) as [Hd1 Hd2].
  pose proof (Z.log2_nonneg n) as Ha. pose proof (Z.log2_nonneg d) as Hb.
  set (a := Z.log2 n) in *. set (b := Z.log2 d) in *.
  rewrite Z.pow_succ_r in Hn2, Hd2 by lia.
  assert (Hpa : 0 < 2 ^ a) by (apply Z.pow_pos_nonneg; lia).
  assert (Hpb : 0 < 2 ^ b) by (apply Z.pow_pos_nonneg; lia).
  (* the ratio lies strictly between 2^(k-1) and 2^(k+1) *)
  destruct (Z.le_gt_cases 0 k) as [Hk | Hk].
  - (* a = b + k *)
    assert (Eab : 2 ^ a = 2 ^ b * 2 ^ k)
      by (rewrite <- Z.pow_add_r by lia; f_equal; unfold k; lia).
    assert (Hpk : 0 < 2 ^ k) by (apply Z.pow_pos_nonneg; lia).
    assert (P1 : 2 ^ b * 2 ^ k <= d * 2 ^ k)
      by (apply Z.mul_le_mono_nonneg_r; lia).
    assert (P2 : d * 2 ^ k < 2 * 2 ^ b * 2 ^ k)
      by (apply Z.mul_lt_mono_pos_r; lia).
    assert (Ek1 : 2 ^ (k + 1) = 2 * 2 ^ k)
      by (rewrite Z.pow_add_r by lia; change (2 ^ 1) with 2; lia).
    unfold lg.
    replace (Z.max 0 (- k)) with 0 by lia.
    replace (Z.max 0 k) with k by lia.
    rewrite Z.pow_0_r, Z.mul_1_r.
    destruct (n <? d * 2 ^ k) eqn:Etest.
    + apply Z.ltb_lt in Etest.
      destruct (Z.eq_dec k 0) as [E0 | E0].
      * rewrite E0 in *. change (2 ^ 0) with 1 in *.
        replace (Z.max 0 (0 - 1)) with 0 by lia.
        replace (Z.max 0 (- (0 - 1))) with 1 by lia.
        replace (Z.max 0 (- (0 - 1 + 1))) with 0 by lia.
        replace (Z.max 0 (0 - 1 + 1)) with 0 by lia.
        change (2 ^ 1) with 2. change (2 ^ 0) with 1. lia.
      * assert (Ek : 2 ^ k = 2 * 2 ^ (k - 1)).
        { rewrite <- Z.pow_succ_r by lia. f_equal. lia. }
        replace (Z.max 0 (k - 1)) with (k - 1) by lia.
        replace (Z.max 0 (- (k - 1))) with 0 by lia.
        replace (Z.max 0 (- (k - 1 + 1))) with 0 by lia.
        replace (Z.max 0 (k - 1 + 1)) with k by lia.
        rewrite Z.pow_0_r, !Z.mul_1_r.
        assert (0 < 2 ^ (k - 1)) by (apply Z.pow_pos_nonneg; lia).
        split; [lia | lia].
    + apply Z.ltb_ge in Etest.
      replace (Z.max 0 (- (k + 1))) with 0 by lia.
      replace (Z.max 0 (k + 1)) with (k + 1) by lia.
      replace (Z.max 0 (- k)) with 0 by lia.
      replace (Z.max 0 k) with k by lia.
      rewrite Z.pow_0_r, !Z.mul_1_r, Ek1.
      split; [lia | lia].
  - (* b = a + (- k) *)
    assert (Eab : 2 ^ b = 2 ^ a * 2 ^ (- k))
      by (rewrite <- Z.pow_add_r by lia; f_equal; unfold k; lia).
    assert (Hpk : 0 < 2 ^ (- k)) by (apply Z.pow_pos_nonneg; lia).
    assert (P1 : 2 ^ a * 2 ^ (- k) <= n * 2 ^ (- k))
      by (apply Z.mul_le_mono_nonneg_r; lia).
    assert (P2 : n * 2 ^ (- k) < 2 * 2 ^ a * 2 ^ (- k))
      by (apply Z.mul_lt_mono_pos_r; lia).
    assert (Ek1 : 2 ^ (- k) = 2 * 2 ^ (- (k + 1))).
    { rewrite <- Z.pow_succ_r by lia. f_equal. lia. }
    assert (Ek2 : 2 ^ (- (k - 1)) = 2 * 2 ^ (- k)).
    { rewrite <- Z.pow_succ_r by lia. f_equal. lia. }
    assert (0 < 2 ^ (- (k + 1))) by (apply Z.pow_pos_nonneg; lia).
    unfold lg.
    replace (Z.max 0 (- k)) with (- k) by lia.
    replace (Z.max 0 k) with 0 by lia.
    rewrite Z.pow_0_r, Z.mul_1_r.
    destruct (n * 2 ^ (- k) <? d) eqn:Etest.
    + apply Z.ltb_lt in Etest.
      replace (Z.max 0 (k - 1)) with 0 by lia.
      replace (Z.max 0 (- (k - 1))) with (- (k - 1)) by lia.
      replace (Z.max 0 (- (k - 1 + 1))) with (- k) by lia.
      replace (Z.max 0 (k - 1 + 1)) with 0 by lia.
      rewrite Z.pow_0_r, !Z.mul_1_r, Ek2.
      split; [lia | lia].
    + apply Z.ltb_ge in Etest.
      replace (Z.max 0 (- (k + 1))) with (- (k + 1)) by lia.
      replace (Z.max 0 (k + 1)) with 0 by lia.
      replace (Z.max 0 (- k)) with (- k) by lia.
      replace (Z.max 0 k) with 0 by lia.
      rewrite Z.pow_0_r, !Z.mul_1_r.
      split; [lia | lia].
Qed.

(** The scaled ratio that is rounded to the significand lies between
    [2 ^ 52] and [2 ^ 53], or below [2 ^ 52] for a subnormal result. *)
Lemma significand_range (n d lg : Z) :
  0 < n -> 0 < d ->
  d * 2 ^ Z.max 0 lg <= n * 2 ^ Z.max 0 (- lg) ->
  n * 2 ^ Z.max 0 (- (lg + 1)) < d * 2 ^ Z.max 0 (lg + 1) ->
  let e := Z.max (lg - 52) (-1074) in
  let N := n * 2 ^ Z.max 0 (- e) in
  let D := d * 2 ^ Z.max 0 e in
  0 < D /\ N < 2 ^ 53 * D /\ (-1074 <= lg - 52 -> 2 ^ 52 * D <= N).
Proof.
  intros Hn Hd Hlow Hup e N D.
  assert (HD : 0 < D).
  { apply Z.mul_pos_pos; [lia |]. apply Z.pow_pos_nonneg; lia. }
  split; [exact HD |].
  destruct (Z.le_gt_cases (-1074) (lg - 52)) as [Hnormal | Hsub].
  - assert (Ee : e = lg - 52) by (unfold e; lia).
    destruct (Z.le_gt_cases 52 lg) as [Hbig | Hsmall].
    + (* the exponent is not negative *)
      unfold N, D. rewrite Ee.
      replace (Z.max 0 (- (lg - 52))) with 0 by lia.
      replace (Z.max 0 (lg - 52)) with (lg - 52) by lia.
      replace (Z.max 0 lg) with (lg - 52 + 52) in Hlow by lia.
      replace (Z.max 0 (- lg)) with 0 in Hlow by lia.
      replace (Z.max 0 (- (lg + 1))) with 0 in Hup by lia.
      replace (Z.max 0 (lg + 1)) with (lg - 52 + 53) in Hup by lia.
      rewrite Z.pow_add_r in Hlow, Hup by lia.
      rewrite Z.pow_0_r, Z.mul_1_r in *.
      split; [| intros _]; lia.
    + destruct (Z.le_gt_cases 0 lg) as [Hpos | Hneg].
      * (* the ratio is at least 1 *)
        unfold N, D. rewrite Ee.
        replace (Z.max 0 (- (lg - 52))) with (52 - lg) by lia.
        replace (Z.max 0 (lg - 52)) with 0 by lia.
        replace (Z.max 0 lg) with lg in Hlow by lia.
        replace (Z.max 0 (- lg)) with 0 in Hlow by lia.
        replace (Z.max 0 (- (lg + 1))) with 0 in Hup by lia.
        replace (Z.max 0 (lg + 1)) with (lg + 1) in Hup by lia.
        rewrite Z.pow_0_r, Z.mul_1_r in *.
        assert (Hp : 0 < 2 ^ (52 - lg)) by (apply Z.pow_pos_nonneg; lia).
        assert (E52 : 2 ^ lg * 2 ^ (52 - lg) = 2 ^ 52)
          by (rewrite <- Z.pow_add_r by lia; f_equal; lia).
        assert (E53 : 2 ^ (lg + 1) * 2 ^ (52 - lg) = 2 ^ 53)
          by (rewrite <- Z.pow_add_r by lia; f_equal; lia).
        assert (L1 : d * 2 ^ lg * 2 ^ (52 - lg) <= n * 2 ^ (52 - lg))
          by (apply Z.mul_le_mono_nonneg_r; lia).
        assert (U1 : n * 2 ^ (52 - lg) < d * 2 ^ (lg + 1) * 2 ^ (52 - lg))
          by (apply Z.mul_lt_mono_pos_r; lia).
        rewrite <- Z.mul_assoc, E52 in L1. rewrite <- Z.mul_assoc, E53 in U1.
        split; [| intros _]; lia.
      * (* the ratio is below 1 *)
        unfold N, D. rewrite Ee.
        replace (Z.max 0 (- (lg - 52))) with (52 - lg) by lia.
        replace (Z.max 0 (lg - 52)) with 0 by lia.
        replace (Z.max 0 lg) with 0 in Hlow by lia.
        replace (Z.max 0 (- lg)) with (- lg) in Hlow by lia.
        replace (Z.max 0 (- (lg + 1))) with (- lg - 1) in Hup by lia.
        replace (Z.max 0 (lg + 1)) with 0 in Hup by lia.
        rewrite Z.pow_0_r, Z.mul_1_r in *.
        assert (E52 : 2 ^ (52 - lg) = 2 ^ (- lg) * 2 ^ 52)
          by (rewrite <- Z.pow_add_r by lia; f_equal; lia).
        assert (E53 : 2 ^ (52 - lg) = 2 ^ (- lg - 1) * 2 ^ 53)
          by (rewrite <- Z.pow_add_r by lia; f_equal; lia).
        assert (L1 : d * 2 ^ 52 <= n * 2 ^ (- lg) * 2 ^ 52)
          by (apply Z.mul_le_mono_nonneg_r; lia).
        assert (U1 : n * 2 ^ (- lg - 1) * 2 ^ 53 < d * 2 ^ 53)
          by (apply Z.mul_lt_mono_pos_r; lia).
        split; [rewrite E53 | intros _; rewrite E52]; lia.
  - (* a subnormal result *)
    assert (Ee : e = -1074) by (unfold e; lia).
    unfold N, D. rewrite Ee.
    replace (Z.max 0 (- -1074)) with 1074 by lia.
    replace (Z.max 0 (-1074)) with 0 by lia.
    replace (Z.max 0 (- (lg + 1))) with (- lg - 1) in Hup by lia.
    replace (Z.max 0 (lg + 1)) with 0 in Hup by lia.
    rewrite Z.pow_0_r, Z.mul_1_r in *.
    split; [| lia].
    assert (H5253 : 2 ^ 52 <= 2 ^ 53) by (apply Z.pow_le_mono_r; lia).
    assert (Hd53 : d * 2 ^ 52 <= 2 ^ 53 * d) by nia.
    destruct (Z.le_gt_cases (-1075) lg) as [Hnear | Hfar].
    + assert (E : 2 ^ 1074 = 2 ^ (- lg - 1) * 2 ^ (1075 + lg))
        by (rewrite <- Z.pow_add_r by lia; f_equal; lia).
      assert (Hp : 0 < 2 ^ (1075 + lg)) by (apply Z.pow_pos_nonneg; lia).
      assert (Hle : 2 ^ (1075 + lg) <= 2 ^ 52)
        by (apply Z.pow_le_mono_r; lia).
      assert (U1 : n * 2 ^ (- lg - 1) * 2 ^ (1075 + lg)
                   < d * 2 ^ (1075 + lg))
        by (apply Z.mul_lt_mono_pos_r; lia).
      assert (U2 : d * 2 ^ (1075 + lg) <= d * 2 ^ 52)
        by (apply Z.mul_le_mono_nonneg_l; lia).
      rewrite E. lia.
    + assert (Hle : 2 ^ 1074 <= 2 ^ (- lg - 1))
        by (apply Z.pow_le_mono_r; lia).
      assert (U1 : n * 2 ^ 1074 <= n * 2 ^ (- lg - 1))
        by (apply Z.mul_le_mono_nonneg_l; lia).
      assert (0 < 2 ^ 52) by (apply Z.pow_pos_nonneg; lia).
      nia.
Qed.

(** [double_of_ratio] rounds to the nearest double: the significand of a
    normal result has 53 bits, that of a subnormal one fewer, the exponent
    is in range, the value [m * 2 ^ e] is within half a unit in the last
    place of [n / d], and the division overflows only from
    [2 ^ 1024 - 2 ^ 970] on, the midpoint above the largest double. *)
Lemma double_of_ratio_nearest (s : bool) (n d : Z) :
  0 < n -> 0 < d ->
  match double_of_ratio s n d with
  | inr (S754_finite s' m e) =>
      s' = s
      /\ -1074 <= e <= 971
      /\ Z.pos m < 2 ^ 53
      /\ (-1074 < e -> 2 ^ 52 <= Z.pos m)
      /\ Z.abs (2 * (d * 2 ^ Z.max 0 e) * Z.pos m
                - 2 * (n * 2 ^ Z.max 0 (- e)))
         <= d * 2 ^ Z.max 0 e
  | inr (S754_zero s') => s' = s /\ 2 * (n * 2 ^ 1074) <= d
  | inr _ => False
  | inl e => e = OverflowError /\ (2 ^ 1024 - 2 ^ 970) * d <= n
  end.
Proof.
  intros Hn Hd. unfold double_of_ratio.
  pose proof (ratio_log2 n d Hn Hd) as Hlog. cbv zeta in Hlog.
  set (k := Z.log2 n - Z.log2 d) in *.
  set (lg := if n * 2 ^ Z.max 0 (- k) <? d * 2 ^ Z.max 0 k
             then k - 1 else k) in *.
  destruct Hlog as [Hlow Hup].
  pose proof (significand_range n d lg Hn Hd Hlow Hup) as Hrange.
  cbv zeta in Hrange.
  set (e := Z.max (lg - 52) (-1074)) in *.
  set (N := n * 2 ^ Z.max 0 (- e)) in *.
  set (D := d * 2 ^ Z.max 0 e) in *.
  destruct Hrange as (HD & HU & HL).
  pose proof (round_half_even_div_near N D HD) as Hnear.
  assert (HN : 0 <= N).
  { apply Z.mul_nonneg_nonneg; [lia |]. apply Z.pow_nonneg. lia. }
  pose proof (round_half_even_div_nonneg N D HN HD) as Hm.
  set (m := round_half_even_div N D) in *.
  assert (H52 : 0 < 2 ^ 52) by (apply Z.pow_pos_nonneg; lia).
  assert (E53 : 2 ^ 53 = 2 * 2 ^ 52) by reflexivity.
  assert (Hm53 : m <= 2 ^ 53) by nia.
  assert (Hm52 : -1074 <= lg - 52 -> 2 ^ 52 <= m) by (intros Hn'; specialize (HL Hn'); nia).
  assert (He : -1074 <= e) by (unfold e; lia).
  destruct (m =? 2 ^ 53) eqn:Ecarry.
  - apply Z.eqb_eq in Ecarry.
    change (2 ^ 52) with (Z.pos (2 ^ 52)). cbv iota beta.
    change (Z.pos (2 ^ 52)) with (2 ^ 52) in *.
    destruct (e + 1 <=? 971) eqn:Ele.
    + apply Z.leb_le in Ele.
      split; [reflexivity |]. split; [lia |]. split; [lia |].
      split; [intros _; change (2 ^ 52 <= 2 ^ 52); lia |].
      change (Z.pos (2 ^ 52)) with (2 ^ 52).
      rewrite Ecarry in Hnear.
      destruct (Z.le_gt_cases 0 e) as [Hpos | Hneg].
      * replace (Z.max 0 (e + 1)) with (e + 1) by lia.
        replace (Z.max 0 (- (e + 1))) with 0 by lia.
        unfold N, D in Hnear.
        replace (Z.max 0 e) with e in Hnear by lia.
        replace (Z.max 0 (- e)) with 0 in Hnear by lia.
        rewrite Z.pow_add_r by lia. change (2 ^ 1) with 2.
        assert (0 < 2 ^ e) by (apply Z.pow_pos_nonneg; lia).
        rewrite Z.pow_0_r, Z.mul_1_r in *. nia.
      * replace (Z.max 0 (e + 1)) with 0 by lia.
        replace (Z.max 0 (- (e + 1))) with (- e - 1) by lia.
        unfold N, D in Hnear.
        replace (Z.max 0 e) with 0 in Hnear by lia.
        replace (Z.max 0 (- e)) with (- e) in Hnear by lia.
        assert (Ee : 2 ^ (- e) = 2 * 2 ^ (- e - 1)).
        { rewrite <- Z.pow_succ_r by lia. f_equal. lia. }
        rewrite Ee in Hnear.
        rewrite Z.pow_0_r, Z.mul_1_r in *. lia.
    + apply Z.leb_gt in Ele.
      split; [reflexivity |].
      unfold N, D in Hnear. rewrite Ecarry in Hnear.
      replace (Z.max 0 e) with e in Hnear by lia.
      replace (Z.max 0 (- e)) with 0 in Hnear by lia.
      rewrite Z.pow_0_r, Z.mul_1_r in Hnear.
      assert (Hpe : 2 ^ 971 <= 2 ^ e) by (apply Z.pow_le_mono_r; lia).
      assert (E1024 : 2 ^ 1024 = 2 ^ 971 * 2 ^ 53) by reflexivity.
      assert (E970 : 2 * 2 ^ 970 = 2 ^ 971) by reflexivity.
      assert (0 < 2 ^ 971) by (apply Z.pow_pos_nonneg; lia).
      assert (Hde : d * 2 ^ 971 <= d * 2 ^ e)
        by (apply Z.mul_le_mono_nonneg_l; lia).
      nia.
  - apply Z.eqb_neq in Ecarry.
    destruct m as [| p | p] eqn:Em; [| | lia].
    + split; [reflexivity |].
      assert (Hsub : lg - 52 < -1074) by (destruct (Z.le_gt_cases (-1074) (lg - 52)) as [Hc | Hc]; [specialize (Hm52 Hc); lia | exact Hc]).
      unfold N, D in Hnear.
      replace e with (-1074) in Hnear by (unfold e; lia).
      change (Z.max 0 (- -1074)) with 1074 in Hnear.
      change (Z.max 0 (-1074)) with 0 in Hnear.
      rewrite Z.pow_0_r, Z.mul_1_r in Hnear. lia.
    + destruct (e <=? 971) eqn:Ele.
      * apply Z.leb_le in Ele.
        split; [reflexivity |]. split; [lia |]. split; [lia |].
        split; [| exact Hnear].
        intros Hnormal. apply Hm52. unfold e in Hnormal. lia.
      * apply Z.leb_gt in Ele.
        split; [reflexivity |].
        assert (Hnormal : -1074 <= lg - 52) by (unfold e in Ele; lia).
        specialize (HL Hnormal). unfold N, D in HL.
        replace (Z.max 0 e) with e in HL by lia.
        replace (Z.max 0 (- e)) with 0 in HL by lia.
        rewrite Z.pow_0_r, Z.mul_1_r in HL.
        assert (Hpe : 2 ^ 972 <= 2 ^ e) by (apply Z.pow_le_mono_r; lia).
        assert (E1024 : 2 ^ 1024 = 2 ^ 52 * 2 ^ 972) by reflexivity.
        assert (0 < 2 ^ 970) by (apply Z.pow_pos_nonneg; lia).
        assert (Hde : d * 2 ^ 972 <= d * 2 ^ e)
          by (apply Z.mul_le_mono_nonneg_l; lia).
        nia.
Qed.

(** ** Rendering a route *)

Lemma dict_get_some_truthy (k : string) (d : dict) (x : value) :
  dict_get k d = Some x -> truthy (VDict d) = true /\ dict_mem k d = true.
Proof.
  intros H. unfold dict_mem. rewrite H. split; [| reflexivity].
  now destruct d.
Qed.

(** The guard of [display_walking_navigation] lets a value through exactly
    when its [route] can be read. *)
Lemma first_path_inv (nav_result : value) (pd : dict) :
  first_path nav_result = Some pd ->
  exists d route all_paths,
    nav_result = VDict d
    /\ dict_get "route" d = Some route
    /\ subscript route "paths" = inr all_paths
    /\ subscript0 all_paths = inr (VDict pd).
Proof.
  unfold first_path. intros H.
  destruct (subscript nav_result "route") as [e | route] eqn:Hroute;
    [discriminate |].
  apply subscript_inr in Hroute. destruct Hroute as (d & -> & Hd).
  destruct (subscript route "paths") as [e | all_paths] eqn:Hpaths;
    [discriminate |].
  destruct (subscript0 all_paths) as [e | p] eqn:H0; [discriminate |].
  destruct p; try discriminate. injection H as ->.
  now exists d, route, all_paths.
Qed.








(** The summary of a path is printed whatever its steps are: the output
    starts with the summary and the second heading. *)
Lemma display_summary (nav_result : value) (pd : dict) :
  first_path nav_result = Some pd ->
  summary_ok pd = true ->
  exists rest : list text,
    output (display_walking_navigation nav_result)
    = [ [Lit (nl ++ "=== 步行导航路线信息 ===")] ]
      ++ distance_line pd ++ duration_line pd
      ++ [ [Lit (nl ++ "=== 步行导航指令 ===")] ]
      ++ rest.
Proof.
  intros Hfirst Hok.
  destruct (first_path_inv nav_result pd Hfirst)
    as (d & route & all_paths & -> & Hroute & Hpaths & H0).
  destruct (dict_get_some_truthy "route" d route Hroute) as [Htruthy Hmem].
  unfold summary_ok in Hok.
  apply andb_prop in Hok. destruct Hok as [Hdist Hcost].
  destruct (dict_get "distance" pd) as [dv |] eqn:Edist; [| discriminate].
  destruct (measure_ok_quotient dv 1000 Hdist ltac:(lia))
    as (z & km & Hz & Hkm & Hq).
  unfold display_walking_navigation, distance_line, duration_line.
  rewrite Htruthy. cbn [negb]. unfold contains. fold (dict_mem "route" d).
  rewrite Hmem. simpl. rewrite Hroute. simpl. rewrite Hpaths. simpl.
  rewrite H0. simpl. rewrite Edist, Hq. simpl.
  rewrite Hz. simpl. rewrite Hkm. simpl.
  unfold cost_ok in Hcost. unfold dict_mem.
  destruct (dict_get "cost" pd) as [cost |]; simpl.
  - destruct (subscript cost "duration") as [e | duv]; [discriminate |].
    destruct (measure_ok_quotient duv 60 Hcost ltac:(lia))
      as (sec & mins & Hsec & Hmins & Hq').
    simpl. rewrite Hsec. simpl. rewrite Hmins, Hq'. simpl.
    destruct (dict_get "steps" pd) as [sv |]; simpl;
      [| eexists; reflexivity].
    destruct (iterate sv) as [e | steps]; simpl; [eexists; reflexivity |].
    destruct (for_each (enumerate 1 steps) _) as [out r].
    eexists; reflexivity.
  - destruct (dict_get "steps" pd) as [sv |]; simpl;
      [| eexists; reflexivity].
    destruct (iterate sv) as [e | steps]; simpl; [eexists; reflexivity |].
    destruct (for_each (enumerate 1 steps) _) as [out r].
    eexists; reflexivity.
Qed.

(** C5. On [None], and on a result without a [route] field, the only thing
    [display_walking_navigation] does is print the one line saying that no
    route is available; it then returns. *)
Theorem display_without_route :
  display_walking_navigation VNone = ([no_route_line], inr tt)
  /\ (forall d : dict,
        dict_get "route" d = None ->
        display_walking_navigation (VDict d) = ([no_route_line], inr tt))
  /\ (forall nav_result : value,
        contains "route" nav_result = inr false ->
        display_walking_navigation nav_result = ([no_route_line], inr tt))
  /\ render no_route_line = Some "没有可用的步行导航信息".
Proof.
  split; [reflexivity | split; [| split; [| reflexivity]]].
  - intros d Hroute. unfold display_walking_navigation, contains, dict_mem.
    rewrite Hroute. now destruct (truthy (VDict d)).
  - intros nav_result Hno. unfold display_walking_navigation.
    rewrite Hno. now destruct (truthy nav_result).
Qed.

Lemma display_without_route_witness :
  display_walking_navigation (VDict sample_refusal)
  = ([no_route_line], inr tt).
Proof.
  destruct display_without_route as (_ & H & _).
  exact (H sample_refusal eq_refl).
Defined.

(** C10. Every falsy value, the empty dict, the empty string, the empty list
    and zero included, takes the branch of the missing route: one line is
    printed and the call returns, although the membership test on some of
    them would raise. *)
Theorem display_falsy_input (nav_result : value) :
  truthy nav_result = false ->
  display_walking_navigation nav_result = ([no_route_line], inr tt).
Proof.
  intros H. unfold display_walking_navigation. now rewrite H.
Qed.

Lemma display_falsy_input_witness :
  display_walking_navigation (VDict []) = ([no_route_line], inr tt)
  /\ display_walking_navigation (VStr "") = ([no_route_line], inr tt)
  /\ display_walking_navigation (VList []) = ([no_route_line], inr tt)
  /\ display_walking_navigation (VInt 0) = ([no_route_line], inr tt)
  /\ contains "route" (VInt 0) = inl TypeError.
Proof.
  split; [exact (display_falsy_input (VDict []) eq_refl) |].
  split; [exact (display_falsy_input (VStr "") eq_refl) |].
  split; [exact (display_falsy_input (VList []) eq_refl) |].
  split; [exact (display_falsy_input (VInt 0) eq_refl) | reflexivity].
Defined.

(** C6. For [{route: {paths: [{distance: "1000", steps: []}]}}] the output is
    the two headings with the line of the total distance, 1.0 kilometres,
    between them: no line for the duration and no step. *)
Theorem display_one_kilometre :
  map render (output (display_walking_navigation route_one_kilometre))
  = [ Some (nl ++ "=== 步行导航路线信息 ===")%string;
      Some "总距离: 1.0 公里";
      Some (nl ++ "=== 步行导航指令 ===")%string ]
  /\ result (display_walking_navigation route_one_kilometre) = inr tt
  /\ existsb is_duration_line
       (output (display_walking_navigation route_one_kilometre)) = false.
Proof. repeat split; vm_compute; reflexivity. Qed.


(** A path without its [distance] stops the rendering after the first
    heading, and a step without its [instruction] after the second. *)
Lemma display_raises_on_missing_field :
  display_walking_navigation route_without_distance
  = ([ [Lit (nl ++ "=== 步行导航路线信息 ===")] ],
     inl (KeyError (VStr "distance")))
  /\ result (display_walking_navigation route_without_instruction)
     = inl (KeyError (VStr "instruction")).
Proof. split; reflexivity. Qed.

(** What [int] reads: digits of any script, signs, single underscores and
    white space around; and what it refuses. *)
Example parse_int_samples :
  map parse_int sample_literals
  = map Some [120; 12; -7; 1000; 7; 120; 34; -12; 12; 12]
  /\ forallb (fun s => match parse_int s with None => true | _ => false end)
       sample_non_literals = true.
Proof. split; vm_compute; reflexivity. Qed.

(** A distance in full-width digits is shown in ASCII digits.  An int
    beyond the digit limit stops the block where it is formatted: as the
    distance after two lines, as the action before the first. *)
Example display_step_samples :
  map render (output (display_step 1 step_full_width))
  = [ Some (nl ++ "步骤 1: go on")%string;
      Some "  道路名称: 未命名道路";
      Some "  距离: 120 米" ]
  /\ result (display_step 1 step_full_width) = inr tt
  /\ display_step 1 step_beyond_digit_limit
     = ([ [Lit (nl ++ "步骤 "); Fmt (VInt 1); Lit ": "; Fmt (VStr "go on")];
          [Lit "  道路名称: "; Fmt (VStr "未命名道路")] ],
        inl ValueError)
  /\ display_step 1 step_action_beyond_digit_limit = ([], inl ValueError).
Proof. repeat split; vm_compute; reflexivity. Qed.



(** ** The duration line and the steps *)

Lemma no_duration_bind {A B} (m : M A) (f : A -> M B) :
  existsb is_duration_line (output m) = false ->
  (forall a, existsb is_duration_line (output (f a)) = false) ->
  existsb is_duration_line (output (bind m f)) = false.
Proof.
  intros Hm Hf. rewrite output_bind, existsb_app, Hm.
  destruct (result m); [reflexivity | apply Hf].
Qed.

(** No line of a step's block, printed in full or in part, is a duration
    line. *)
Lemma display_step_no_duration (i : Z) (step : value) :
  existsb is_duration_line (output (display_step i step)) = false.
Proof.
  unfold display_step.
  repeat first
    [ reflexivity
    | apply no_duration_bind; [| intros ?]
    | match goal with
      | |- context [if ?b then _ else _] => destruct b
      | |- context [match ?l with [] => _ | _ :: _ => _ end] => destruct l
      end ].
Qed.

Lemma for_each_no_duration (i : Z) (steps : list value) :
  existsb is_duration_line
    (output (for_each (enumerate i steps)
               (fun i_step => display_step (fst i_step) (snd i_step))))
  = false.
Proof.
  revert i. induction steps as [| step rest IH]; intros i.
  - reflexivity.
  - simpl for_each. simpl enumerate.
    apply no_duration_bind; [apply display_step_no_duration |].
    intros _. apply IH.
Qed.



(** C7. The line of the estimated duration is printed exactly for a path
    with a cost block: without one no such line appears; with one, on a
    path whose distance and duration can be divided, whatever its steps
    are, it is the third line and shows the duration in seconds divided by
    60 with one decimal, within half a tenth of the quotient, and 90
    seconds show as 1.5 minutes. *)
Theorem duration_line_iff_cost (nav_result : value) (pd : dict) :
  first_path nav_result = Some pd ->
  (dict_mem "cost" pd = false ->
   existsb is_duration_line
     (output (display_walking_navigation nav_result)) = false)
  /\ (dict_mem "cost" pd = true ->
      summary_ok pd = true ->
      exists cost dv secs minutes,
        dict_get "cost" pd = Some cost
        /\ subscript cost "duration" = inr dv
        /\ py_int dv = inr secs
        /\ int_truediv secs 60 = inr minutes
        /\ nth_error (output (display_walking_navigation nav_result)) 2
           = Some [Lit "预计耗时: "; FmtFixed1 minutes; Lit " 分钟"]
        /\ (0 <= secs < 2 ^ 48 ->
            fixed1 minutes
            = (dec (tenths_of minutes / 10) ++ "."
               ++ dec (tenths_of minutes mod 10))%string
            /\ Z.abs (6 * tenths_of minutes - secs) <= 3)
        /\ (dv = VStr "90" ->
            render [Lit "预计耗时: "; FmtFixed1 minutes; Lit " 分钟"]
            = Some "预计耗时: 1.5 分钟")).
Proof.
  intros Hfirst. split.
  - intros Hcost.
    destruct (first_path_inv nav_result pd Hfirst)
      as (d & route & all_paths & -> & Hroute & Hpaths & H0).
    destruct (dict_get_some_truthy "route" d route Hroute) as [Htruthy Hmem].
    unfold display_walking_navigation.
    rewrite Htruthy. cbn [negb]. unfold contains at 1.
    rewrite Hmem. simpl. rewrite Hroute. simpl. rewrite Hpaths. simpl.
    rewrite H0. simpl.
    destruct (dict_get "distance" pd) as [dv |]; simpl; [| reflexivity].
    destruct (py_int dv) as [e | z]; simpl; [reflexivity |].
    destruct (int_truediv z 1000) as [e | km]; simpl; [reflexivity |].
    rewrite Hcost. simpl.
    destruct (dict_get "steps" pd) as [sv |]; simpl; [| reflexivity].
    destruct (iterate sv) as [e | steps]; simpl; [reflexivity |].
    pose proof (for_each_no_duration 1 steps) as Hloop.
    destruct (for_each (enumerate 1 steps) _) as [out r].
    simpl. exact Hloop.
  - intros Hcost Hok.
    destruct (display_summary nav_result pd Hfirst Hok) as [rest Hdisplay].
    unfold summary_ok in Hok.
    apply andb_prop in Hok. destruct Hok as [Hdist Hcok].
    unfold dict_mem in Hcost. unfold cost_ok in Hcok.
    destruct (dict_get "cost" pd) as [cost |] eqn:Ecost; [| discriminate].
    destruct (subscript cost "duration") as [e | dv] eqn:Edur;
      [discriminate |].
    destruct (measure_ok_quotient dv 60 Hcok ltac:(lia))
      as (secs & minutes & Hsecs & Hmins & Hq).
    destruct (dict_get "distance" pd) as [dist |] eqn:Edist;
      [| discriminate].
    destruct (measure_ok_quotient dist 1000 Hdist ltac:(lia))
      as (z & km & _ & _ & Hqd).
    exists cost, dv, secs, minutes.
    repeat (split; [assumption || reflexivity |]).
    split; [| split].
    + rewrite Hdisplay. unfold distance_line, duration_line.
      rewrite Edist, Hqd, Ecost, Edur, Hq. reflexivity.
    + intros Hrange. now apply minutes_one_decimal.
    + intros ->. vm_compute in Hsecs. injection Hsecs as <-.
      vm_compute in Hmins. injection Hmins as <-. reflexivity.
Qed.

Lemma duration_line_iff_cost_witness :
  existsb is_duration_line
    (output (display_walking_navigation route_one_kilometre)) = false
  /\ nth_error (output (display_walking_navigation route_ninety_seconds)) 2
     = Some [Lit "预计耗时: ";
             FmtFixed1 (S754_finite false 6755399441055744 (-52));
             Lit " 分钟"].
Proof.
  split.
  - destruct (duration_line_iff_cost route_one_kilometre
                path_one_kilometre eq_refl) as [H _].
    apply H. reflexivity.
  - destruct (duration_line_iff_cost route_ninety_seconds
                path_ninety_seconds eq_refl) as [_ H].
    destruct (H eq_refl eq_refl)
      as (cost & dv & secs & minutes & Hc & Hd & Hs & Hm & Hline & _).
    injection Hc as <-. injection Hd as <-.
    vm_compute in Hs. injection Hs as <-.
    vm_compute in Hm. injection Hm as <-.
    exact Hline.
Defined.



(** The whole output for a path of 5000 metres and 3600 seconds with two
    steps. *)
Example display_two_steps :
  map render (output (display_walking_navigation route_two_steps))
  = [ Some (nl ++ "=== 步行导航路线信息 ===")%string;
      Some "总距离: 5.0 公里";
      Some "预计耗时: 60.0 分钟";
      Some (nl ++ "=== 步行导航指令 ===")%string;
      Some (nl ++ "步骤 1: turn left")%string;
      Some "  道路名称: Main Street";
      Some "  距离: 120 米";
      Some "  动作: L";
      Some (nl ++ "步骤 2: go on")%string;
      Some "  道路名称: 未命名道路";
      Some "  距离: 4880 米" ]
  /\ result (display_walking_navigation route_two_steps) = inr tt.
Proof. split; vm_compute; reflexivity. Qed.

(** * More of the program *)

(** ** What the fetch operations give back *)

(** Whatever the service does, [get_walking_navigation] gives [None] or the
    body it received, and then this is a dict with status "1" and nothing
    was printed. *)
Lemma walking_result_cases
    (requests_get : network) (self : AmapNavigation)
    (origin destination : value) :
  (exists out,
     get_walking_navigation requests_get self origin destination
     = (out, inr VNone) /\ out <> [])
  \/ (exists d,
        get_walking_navigation requests_get self origin destination
        = ([], inr (VDict d))
        /\ dict_get "status" d = Some (VStr "1")).
Proof.
  unfold get_walking_navigation, get_walking_navigation_try.
  destruct (requests_get (walking_request self origin destination))
    as [e | resp]; simpl.
  - left. eexists. split; [reflexivity | discriminate].
  - destruct (json resp) as [e | body]; simpl.
    + left. eexists. split; [reflexivity | discriminate].
    + destruct (subscript body "status") as [e | status] eqn:Hstatus; simpl.
      * left. eexists. split; [reflexivity | discriminate].
      * destruct (eq_str status "1") eqn:E; simpl.
        -- right. apply eq_str_true in E. subst status.
           apply subscript_inr in Hstatus.
           destruct Hstatus as (d & -> & Hd). now exists d.
        -- left. eexists. split; [reflexivity | discriminate].
Qed.

Lemma geocode_result_cases
    (requests_get : network) (self : AmapNavigation) (address : string) :
  exists out v, geocode requests_get self address = (out, inr v).
Proof.
  destruct (geocode_returns requests_get self address) as [v Hv].
  unfold result in Hv.
  destruct (geocode requests_get self address) as [out r]. simpl in Hv.
  subst r. now exists out, v.
Qed.

(** ** The entry flow *)

Section MainProperties.

Variables first second third : network.
Variables origin destination : string.
Variable rest : list string.

Let nav := init main_api_key.

(** [main] after the two lines have been read. *)
Lemma main_after_input :
  main first second third (origin :: destination :: rest)
  = let (ev, r) :=
      (origin_location <~ Console.call (geocode first nav origin) ;;
       if negb (truthy origin_location) then
         Console.say [Lit "起点地址无法识别，程序退出"]
       else
         destination_location <~
           Console.call (geocode second nav destination) ;;
         if negb (truthy destination_location) then
           Console.say [Lit "终点地址无法识别，程序退出"]
         else
           Console.say [Lit "起点坐标: "; Fmt origin_location] ;;~
           Console.say [Lit "终点坐标: "; Fmt destination_location] ;;~
           Console.say [Lit (nl ++ "正在获取步行导航路线...")] ;;~
           nav_result <~
             Console.call (get_walking_navigation third nav
                             origin_location destination_location) ;;
           if truthy nav_result then
             Console.call (display_walking_navigation nav_result)
           else
             Console.say
               [Lit "获取步行导航路线失败，请检查网络连接和API密钥是否正确"])
        rest in
    (opening_events ++ ev, r).
Proof.
  unfold main. fold nav. unfold Console.bind at 1 2 3 4 5.
  cbn [Console.say Console.input].
  match goal with |- context [Console.bind ?m ?f rest] =>
    destruct (Console.bind m f rest) as [ev r] end.
  reflexivity.
Qed.

End MainProperties.

(** X1. When the geocoding of the origin gives [None] or any other falsy
    value, [main] says that the origin is not recognised and ends: both
    lines have been read, and what the service would do at a second or
    third request plays no part. *)
Theorem main_stops_at_origin
    (first second third : network) (origin destination : string)
    (rest : list string) (out : list text) (location : value) :
  geocode first (init main_api_key) origin = (out, inr location) ->
  truthy location = false ->
  main first second third (origin :: destination :: rest)
  = (opening_events ++ map Printed out
     ++ [Printed [Lit "起点地址无法识别，程序退出"]],
     inr (tt, rest)).
Proof.
  intros Hgeo Hfalsy. rewrite main_after_input.
  unfold Console.bind, Console.call. rewrite Hgeo, Hfalsy. reflexivity.
Qed.

Lemma main_stops_at_origin_witness :
  main unreachable_service (constant_service (VDict sample_geocodes))
    (constant_service (VDict sample_walk)) ["A"; "B"]
  = (opening_events
     ++ [ Printed [Lit "地址转换异常: ";
                   FmtExn (RequestException "connection refused")];
          Printed [Lit "起点地址无法识别，程序退出"] ],
     inr (tt, [])).
Proof.
  exact (main_stops_at_origin unreachable_service
           (constant_service (VDict sample_geocodes))
           (constant_service (VDict sample_walk)) "A" "B" []
           [ [Lit "地址转换异常: ";
              FmtExn (RequestException "connection refused")] ]
           VNone eq_refl eq_refl).
Defined.

(** X2. When the origin is resolved and the geocoding of the destination
    gives a falsy value, [main] says that the destination is not recognised
    and ends without printing a coordinate or asking for a route. *)
Theorem main_stops_at_destination
    (first second third : network) (origin destination : string)
    (rest : list string) (out1 out2 : list text) (location1 location2 : value) :
  geocode first (init main_api_key) origin = (out1, inr location1) ->
  truthy location1 = true ->
  geocode second (init main_api_key) destination = (out2, inr location2) ->
  truthy location2 = false ->
  main first second third (origin :: destination :: rest)
  = (opening_events ++ map Printed out1 ++ map Printed out2
     ++ [Printed [Lit "终点地址无法识别，程序退出"]],
     inr (tt, rest)).
Proof.
  intros Hgeo1 Htruthy Hgeo2 Hfalsy. rewrite main_after_input.
  unfold Console.bind, Console.call.
  rewrite Hgeo1, Htruthy. cbn [negb]. rewrite Hgeo2, Hfalsy.
  cbn [negb Console.say]. reflexivity.
Qed.

Lemma main_stops_at_destination_witness :
  main (constant_service (VDict sample_geocodes))
    (constant_service (VDict sample_no_match))
    unreachable_service ["A"; "B"]
  = (opening_events
     ++ [ Printed [Lit "地址转换失败: "; Fmt (VStr "B")];
          Printed [Lit "错误信息: "; Fmt (VDict sample_no_match)];
          Printed [Lit "终点地址无法识别，程序退出"] ],
     inr (tt, [])).
Proof.
  exact (main_stops_at_destination
           (constant_service (VDict sample_geocodes))
           (constant_service (VDict sample_no_match))
           unreachable_service "A" "B" [] []
           [ [Lit "地址转换失败: "; Fmt (VStr "B")];
             [Lit "错误信息: "; Fmt (VDict sample_no_match)] ]
           (VStr "116.1,39.9") VNone eq_refl eq_refl eq_refl eq_refl).
Defined.





(** X5. [main] asks the service nothing before it has read two lines: with
    fewer on the standard input it stops with [EOFError] at the first or the
    second prompt, whatever the service is; with two or more it never stops
    with [EOFError]. *)
Theorem main_needs_two_lines
    (first second third : network) (stdin : list string) :
  (stdin = [] ->
   main first second third stdin
   = ([ Printed [Lit "欢迎使用高德地图步行导航程序!"];
        Printed
          [Lit "请输入起点和终点地址，程序将为您规划最佳步行路线。"];
        Prompt "请输入起点地址: " ],
      inl EOFError))
  /\ (forall line, stdin = [line] ->
      main first second third stdin
      = ([ Printed [Lit "欢迎使用高德地图步行导航程序!"];
           Printed
             [Lit "请输入起点和终点地址，程序将为您规划最佳步行路线。"];
           Prompt "请输入起点地址: ";
           Prompt "请输入终点地址: " ],
         inl EOFError))
  /\ (Console.outcome (main first second third stdin) = inl EOFError
      <-> (List.length stdin < 2)%nat).
Proof.
  split; [now intros -> | split; [now intros line -> |]].
  destruct stdin as [| origin [| destination rest]].
  - split; [simpl; lia | reflexivity].
  - split; [simpl; lia | reflexivity].
  - split; [| simpl; lia].
    rewrite main_after_input. unfold Console.outcome.
    unfold Console.bind, Console.call.
    destruct (geocode_result_cases first (init main_api_key) origin)
      as (out1 & l1 & ->).
    destruct (truthy l1); cbn [negb Console.say]; [| discriminate].
    destruct (geocode_result_cases second (init main_api_key) destination)
      as (out2 & l2 & ->).
    destruct (truthy l2); cbn [negb Console.say]; [| discriminate].
    destruct (walking_result_cases third (init main_api_key) l1 l2)
      as [(out3 & -> & _) | (d & -> & _)].
    + discriminate.
    + destruct (truthy (VDict d)); [| discriminate].
      destruct (display_walking_navigation (VDict d)) as [out [e | []]];
        discriminate.
Qed.

Lemma main_needs_two_lines_witness :
  main unreachable_service unreachable_service unreachable_service ["A"]
  = ([ Printed [Lit "欢迎使用高德地图步行导航程序!"];
       Printed
         [Lit "请输入起点和终点地址，程序将为您规划最佳步行路线。"];
       Prompt "请输入起点地址: ";
       Prompt "请输入终点地址: " ],
     inl EOFError).
Proof.
  destruct (main_needs_two_lines unreachable_service unreachable_service
              unreachable_service ["A"]) as (_ & H & _).
  exact (H "A" eq_refl).
Defined.

(** ** The results of the client, as a caller sees them *)

(** X7. What [get_walking_navigation] returns is either [None], and then a
    diagnostic was printed, or a truthy dict of status "1", and then nothing
    was printed: testing the result for truth, as [main] does, tells the
    two apart. *)
Theorem walking_result_is_none_or_route
    (requests_get : network) (self : AmapNavigation)
    (origin destination : value) (v : value) :
  result (get_walking_navigation requests_get self origin destination)
  = inr v ->
  (v = VNone
   /\ output (get_walking_navigation requests_get self origin destination)
      <> [])
  \/ (truthy v = true
      /\ subscript v "status" = inr (VStr "1")
      /\ output (get_walking_navigation requests_get self origin destination)
         = []).
Proof.
  intros Hv.
  destruct (walking_result_cases requests_get self origin destination)
    as [(out & Hrun & Hout) | (d & Hrun & Hstatus)];
    rewrite Hrun in *; unfold result, output in *; simpl in *;
    injection Hv as <-.
  - left. now split.
  - right. destruct (dict_get_some_truthy "status" d _ Hstatus) as [Ht _].
    split; [exact Ht |]. split; [| reflexivity].
    simpl. now rewrite Hstatus.
Qed.

Lemma walking_result_is_none_or_route_witness :
  (VDict sample_walk = VNone
   /\ output (get_walking_navigation (constant_service (VDict sample_walk))
                (init "k") (VStr "116.1,39.9") (VStr "116.2,39.8")) <> [])
  \/ (truthy (VDict sample_walk) = true
      /\ subscript (VDict sample_walk) "status" = inr (VStr "1")
      /\ output (get_walking_navigation
                   (constant_service (VDict sample_walk))
                   (init "k") (VStr "116.1,39.9") (VStr "116.2,39.8")) = []).
Proof.
  exact (walking_result_is_none_or_route
           (constant_service (VDict sample_walk)) (init "k")
           (VStr "116.1,39.9") (VStr "116.2,39.8") (VDict sample_walk)
           eq_refl).
Defined.

(** X8. [geocode] prints only when it fails: whenever it returns something
    other than [None] it has printed nothing, and it never prints more than
    two lines. *)
Theorem geocode_prints_only_on_failure
    (requests_get : network) (self : AmapNavigation) (address : string) :
  (forall v,
     result (geocode requests_get self address) = inr v ->
     v <> VNone ->
     output (geocode requests_get self address) = [])
  /\ (List.length (output (geocode requests_get self address)) <= 2)%nat.
Proof.
  unfold geocode, geocode_try.
  destruct (requests_get (geocode_request self address)) as [e | resp];
    simpl; [split; [intros v [= <-] H; now destruct H | lia] |].
  destruct (json resp) as [e | body];
    simpl; [split; [intros v [= <-] H; now destruct H | lia] |].
  destruct (subscript body "status") as [e | status];
    simpl; [split; [intros v [= <-] H; now destruct H | lia] |].
  destruct (eq_str status "1"); simpl;
    [| split; [intros v [= <-] H; now destruct H | lia]].
  destruct (subscript body "count") as [e | count];
    simpl; [split; [intros v [= <-] H; now destruct H | lia] |].
  destruct (negb (eq_str count "0")); simpl;
    [| split; [intros v [= <-] H; now destruct H | lia]].
  destruct (subscript body "geocodes") as [e | geocodes];
    simpl; [split; [intros v [= <-] H; now destruct H | lia] |].
  destruct (subscript0 geocodes) as [e | entry];
    simpl; [split; [intros v [= <-] H; now destruct H | lia] |].
  destruct (subscript entry "location") as [e | location];
    simpl; [split; [intros v [= <-] H; now destruct H | lia] |].
  split; [reflexivity | lia].
Qed.

Lemma geocode_prints_only_on_failure_witness :
  output (geocode (constant_service (VDict sample_geocodes)) (init "k") "A")
  = [].
Proof.
  destruct (geocode_prints_only_on_failure
              (constant_service (VDict sample_geocodes)) (init "k") "A")
    as [H _].
  apply (H (VStr "116.1,39.9")); [reflexivity | discriminate].
Defined.

(** X9. A body that [geocode] cannot read as expected is absorbed like a
    failed request: a body that is not an object gives the report of a
    [TypeError], a body of status "1" without a count that of the
    [KeyError] for [count], and [None] is returned.  The count is not looked
    at unless the status is "1". *)
Theorem geocode_absorbs_malformed_body
    (requests_get : network) (self : AmapNavigation) (address : string)
    (resp : response) (body : value) :
  requests_get (geocode_request self address) = inr resp ->
  json resp = inr body ->
  ((forall d, body <> VDict d) ->
   geocode requests_get self address
   = ([ [Lit "地址转换异常: "; FmtExn TypeError] ], inr VNone))
  /\ (forall d,
        body = VDict d ->
        dict_get "status" d = Some (VStr "1") ->
        dict_get "count" d = None ->
        geocode requests_get self address
        = ([ [Lit "地址转换异常: "; FmtExn (KeyError (VStr "count"))] ],
           inr VNone))
  /\ (forall d status,
        body = VDict d ->
        dict_get "status" d = Some status ->
        status <> VStr "1" ->
        dict_get "count" d = None ->
        geocode requests_get self address
        = ([ [Lit "地址转换失败: "; Fmt (VStr address)];
             [Lit "错误信息: "; Fmt body] ], inr VNone)).
Proof.
  intros Hget Hjson. unfold geocode, geocode_try.
  rewrite Hget. simpl. rewrite Hjson. simpl.
  split; [| split].
  - intros Hnot. destruct body; try reflexivity. now destruct (Hnot d).
  - intros d -> Hstatus Hcount. simpl. rewrite Hstatus. simpl.
    now rewrite Hcount.
  - intros d status -> Hstatus Hne _. simpl. rewrite Hstatus. simpl.
    apply eq_str_false in Hne. now rewrite Hne.
Qed.

Lemma geocode_absorbs_malformed_body_witness :
  geocode (constant_service (VList [])) (init "k") "A"
  = ([ [Lit "地址转换异常: "; FmtExn TypeError] ], inr VNone)
  /\ geocode (constant_service (VDict [("status", VStr "1")])) (init "k") "A"
     = ([ [Lit "地址转换异常: "; FmtExn (KeyError (VStr "count"))] ],
        inr VNone).
Proof.
  split.
  - destruct (geocode_absorbs_malformed_body (constant_service (VList []))
                (init "k") "A" {| json := inr (VList []) |} (VList [])
                eq_refl eq_refl) as (H & _).
    apply H. discriminate.
  - destruct (geocode_absorbs_malformed_body
                (constant_service (VDict [("status", VStr "1")]))
                (init "k") "A"
                {| json := inr (VDict [("status", VStr "1")]) |}
                (VDict [("status", VStr "1")])
                eq_refl eq_refl) as (_ & H & _).
    exact (H [("status", VStr "1")] eq_refl eq_refl eq_refl).
Defined.

(** X10. Each fetch operation asks the service once, at the endpoint that
    [__init__] stored and with the key of the client and its own arguments,
    passed on as they are: two services that answer this one request alike
    give the same result and the same output. *)
Theorem fetches_ask_one_request
    (requests_get requests_get' : network) (key address : string)
    (origin destination : value) :
  (requests_get
     {| req_url := "https://restapi.amap.com/v3/geocode/geo";
        req_params := [("key", VStr key); ("address", VStr address)] |}
   = requests_get'
       {| req_url := "https://restapi.amap.com/v3/geocode/geo";
          req_params := [("key", VStr key); ("address", VStr address)] |} ->
   geocode requests_get (init key) address
   = geocode requests_get' (init key) address)
  /\ (requests_get
        {| req_url := "https://restapi.amap.com/v5/direction/walking";
           req_params := [("key", VStr key);
                          ("origin", origin);
                          ("destination", destination);
                          ("show_fields", VStr "cost,navi,polyline")] |}
      = requests_get'
          {| req_url := "https://restapi.amap.com/v5/direction/walking";
             req_params := [("key", VStr key);
                            ("origin", origin);
                            ("destination", destination);
                            ("show_fields", VStr "cost,navi,polyline")] |} ->
      get_walking_navigation requests_get (init key) origin destination
      = get_walking_navigation requests_get' (init key) origin destination).
Proof.
  split; intros Hsame.
  - unfold geocode, geocode_try, geocode_request, init. simpl.
    now rewrite Hsame.
  - unfold get_walking_navigation, get_walking_navigation_try,
      walking_request, init. simpl.
    now rewrite Hsame.
Qed.

Lemma fetches_ask_one_request_witness :
  geocode (constant_service (VDict sample_geocodes)) (init "k") "A"
  = geocode geocoding_only_service (init "k") "A".
Proof.
  destruct (fetches_ask_one_request
              (constant_service (VDict sample_geocodes))
              geocoding_only_service "k" "A" VNone VNone) as [H _].
  exact (H eq_refl).
Defined.

(** ** More on rendering *)

(** The rendering of a route, once the first path is found. *)
Lemma display_of_first_path (nav_result : value) (pd : dict) :
  first_path nav_result = Some pd ->
  display_walking_navigation nav_result
  = display_walking_navigation
      (VDict [("route", VDict [("paths", VList [VDict pd])])]).
Proof.
  intros Hfirst.
  destruct (first_path_inv nav_result pd Hfirst)
    as (d & route & all_paths & -> & Hroute & Hpaths & H0).
  destruct (dict_get_some_truthy "route" d route Hroute) as [Htruthy Hmem].
  unfold display_walking_navigation at 1.
  rewrite Htruthy. cbn [negb]. unfold contains at 1.
  rewrite Hmem. simpl. rewrite Hroute. simpl. rewrite Hpaths. simpl.
  rewrite H0. reflexivity.
Qed.

(** X11. Only the first path is rendered: two results with the same first
    path are rendered alike, whatever else they, their routes or their
    lists of paths hold. *)
Theorem display_depends_on_first_path
    (nav_result nav_result' : value) (pd : dict) :
  first_path nav_result = Some pd ->
  first_path nav_result' = Some pd ->
  display_walking_navigation nav_result
  = display_walking_navigation nav_result'.
Proof.
  intros H H'.
  now rewrite (display_of_first_path _ _ H), (display_of_first_path _ _ H').
Qed.

Lemma display_depends_on_first_path_witness :
  display_walking_navigation route_two_steps
  = display_walking_navigation route_two_steps_and_more.
Proof.
  exact (display_depends_on_first_path route_two_steps
           route_two_steps_and_more path_two_steps eq_refl eq_refl).
Defined.





(** X13. A truthy value that is not a dict never shows a route: unless the
    membership test finds that "route" is not in it, as in a list or a
    string without it, the call raises [TypeError] before anything is
    printed.  So it does for every number other than zero, for [True], and
    for a string that contains "route". *)
Theorem display_raises_on_non_object (nav_result : value) :
  (forall d, nav_result <> VDict d) ->
  truthy nav_result = true ->
  contains "route" nav_result <> inr false ->
  display_walking_navigation nav_result = ([], inl TypeError).
Proof.
  intros Hnot Htruthy Hcontains. unfold display_walking_navigation.
  rewrite Htruthy. cbn [negb].
  destruct nav_result as [| b | z | x | s | l | d];
    try reflexivity; simpl in *.
  - destruct (substring_of "route" s); [reflexivity | congruence].
  - destruct (existsb (fun x => eq_str x "route") l);
      [reflexivity | congruence].
  - now destruct (Hnot d).
Qed.

Lemma display_raises_on_non_object_witness :
  display_walking_navigation (VInt 5) = ([], inl TypeError)
  /\ display_walking_navigation (VStr "my route") = ([], inl TypeError)
  /\ display_walking_navigation (VList [VStr "route"])
     = ([], inl TypeError).
Proof.
  split; [| split]; apply display_raises_on_non_object;
    reflexivity || discriminate.
Defined.

(** X14. On a path of less than [2 ^ 52] metres whose distance and duration
    can be divided, whatever its steps are, the second line printed is the
    total distance, and the number it shows, with one decimal, is within
    half a tenth of the metres divided by 1000. *)
Theorem display_distance_one_decimal
    (nav_result : value) (pd : dict) (dv : value) (metres : Z) :
  first_path nav_result = Some pd ->
  summary_ok pd = true ->
  dict_get "distance" pd = Some dv ->
  py_int dv = inr metres ->
  0 <= metres < 2 ^ 52 ->
  exists kilometres,
    nth_error (output (display_walking_navigation nav_result)) 1
    = Some [Lit "总距离: "; FmtFixed1 kilometres; Lit " 公里"]
    /\ fixed1 kilometres
       = (dec (tenths_of kilometres / 10) ++ "."
          ++ dec (tenths_of kilometres mod 10))%string
    /\ Z.abs (100 * tenths_of kilometres - metres) <= 50.
Proof.
  intros Hfirst Hok Hdist Hint Hrange.
  destruct (display_summary nav_result pd Hfirst Hok) as [rest Hdisplay].
  rewrite Hdisplay.
  unfold summary_ok in Hok. rewrite Hdist in Hok.
  apply andb_prop in Hok. destruct Hok as [Hmeasure _].
  destruct (measure_ok_quotient dv 1000 Hmeasure ltac:(lia))
    as (z & km & Hz & Hkm & Hq).
  rewrite Hint in Hz. injection Hz as <-.
  exists km. split.
  - unfold distance_line. rewrite Hdist, Hq. reflexivity.
  - now apply kilometres_one_decimal.
Qed.

Lemma display_distance_one_decimal_witness :
  exists kilometres,
    nth_error (output (display_walking_navigation route_two_steps)) 1
    = Some [Lit "总距离: "; FmtFixed1 kilometres; Lit " 公里"]
    /\ fixed1 kilometres
       = (dec (tenths_of kilometres / 10) ++ "."
          ++ dec (tenths_of kilometres mod 10))%string
    /\ Z.abs (100 * tenths_of kilometres - 5000) <= 50.
Proof.
  apply (display_distance_one_decimal route_two_steps path_two_steps
           (VStr "5000") 5000 eq_refl eq_refl eq_refl eq_refl).
  split; [lia | reflexivity].
Defined.

(** A quotient of [2 ^ 1024] or more is beyond every double. *)
Lemma double_of_ratio_overflow (s : bool) (n d : Z) :
  0 < d -> 2 ^ 1024 * d <= n ->
  double_of_ratio s n d = inl OverflowError.
Proof.
  intros Hd Hn.
  assert (H1024 : 0 < 2 ^ 1024) by (apply Z.pow_pos_nonneg; lia).
  assert (Hnpos : 0 < n) by nia.
  pose proof (double_of_ratio_nearest s n d Hnpos Hd) as Hnear.
  destruct (double_of_ratio s n d) as [e | x].
  - destruct Hnear as [-> _]. reflexivity.
  - exfalso. destruct x as [s' | s' | | s' m e]; try contradiction.
    + destruct Hnear as [_ Hzero].
      assert (0 < 2 ^ 1074) by (apply Z.pow_pos_nonneg; lia).
      assert (2 ^ 1024 * d * 1 <= n * 2 ^ 1074)
        by (apply Z.mul_le_mono_nonneg; nia).
      nia.
    + destruct Hnear as (_ & He & Hm & _ & Hclose).
      assert (E1024 : 2 ^ 1024 = 2 ^ 971 * 2 ^ 53) by reflexivity.
      assert (H53 : 0 < 2 ^ 53) by (apply Z.pow_pos_nonneg; lia).
      destruct (Z.le_gt_cases 0 e) as [Hpos | Hneg].
      * replace (Z.max 0 e) with e in Hclose by lia.
        replace (Z.max 0 (- e)) with 0 in Hclose by lia.
        rewrite Z.pow_0_r, Z.mul_1_r in Hclose.
        assert (Hpe : 0 < 2 ^ e) by (apply Z.pow_pos_nonneg; lia).
        assert (Hle : 2 ^ e <= 2 ^ 971) by (apply Z.pow_le_mono_r; lia).
        set (D := d * 2 ^ e) in *.
        assert (HD : 0 < D) by (unfold D; nia).
        assert (Hup : n < D * 2 ^ 53) by nia.
        assert (HD' : D <= d * 2 ^ 971)
          by (unfold D; apply Z.mul_le_mono_nonneg_l; lia).
        assert (D * 2 ^ 53 <= d * 2 ^ 971 * 2 ^ 53)
          by (apply Z.mul_le_mono_nonneg_r; lia).
        nia.
      * replace (Z.max 0 e) with 0 in Hclose by lia.
        replace (Z.max 0 (- e)) with (- e) in Hclose by lia.
        rewrite Z.pow_0_r, Z.mul_1_r in Hclose.
        assert (Hpe : 1 <= 2 ^ (- e))
          by (change 1 with (2 ^ 0); apply Z.pow_le_mono_r; lia).
        assert (Hn' : n <= n * 2 ^ (- e)) by nia.
        assert (Hup : n * 2 ^ (- e) < d * 2 ^ 53) by nia.
        assert (0 < 2 ^ 971) by (apply Z.pow_pos_nonneg; lia).
        assert (d * 2 ^ 53 <= 2 ^ 971 * 2 ^ 53 * d) by nia.
        nia.
Qed.

(** X15. A distance of [2 ^ 1024] kilometres or more cannot be divided into
    a float: after the first heading the call raises [OverflowError], which
    no field of the path prevents. *)
Theorem display_overflows_on_huge_distance
    (nav_result : value) (pd : dict) (dv : value) (metres : Z) :
  first_path nav_result = Some pd ->
  dict_get "distance" pd = Some dv ->
  py_int dv = inr metres ->
  2 ^ 1024 * 1000 <= metres ->
  display_walking_navigation nav_result
  = ([ [Lit (nl ++ "=== 步行导航路线信息 ===")] ], inl OverflowError).
Proof.
  intros Hfirst Hdist Hint Hhuge.
  rewrite (display_of_first_path nav_result pd Hfirst).
  assert (H1024 : 0 < 2 ^ 1024) by (apply Z.pow_pos_nonneg; lia).
  assert (Hdiv : int_truediv metres 1000 = inl OverflowError).
  { rewrite int_truediv_pos by lia.
    apply double_of_ratio_overflow; lia. }
  unfold display_walking_navigation. simpl.
  rewrite Hdist. simpl. rewrite Hint. simpl. now rewrite Hdiv.
Qed.

Lemma display_overflows_on_huge_distance_witness :
  display_walking_navigation route_too_long
  = ([ [Lit (nl ++ "=== 步行导航路线信息 ===")] ], inl OverflowError).
Proof.
  apply (display_overflows_on_huge_distance route_too_long path_too_long
           (VInt (2 ^ 1024 * 1000)) (2 ^ 1024 * 1000)
           eq_refl eq_refl eq_refl).
  lia.
Defined.


